(** * DFRobot_AHT20 (MicroPython): a shallow embedding of the sensor driver

    The development follows [DFRobot_AHT20.py].  Python integers are [Z]
    (unbounded, so shifts never wrap), the elements of a [bytes] object are
    [Byte.byte], Python floats are IEEE binary64 numbers ([PrimFloat.float]).
    The I2C bus is the environment: every bus transaction consumes the next
    answer of a script, and everything the driver does to the outside world
    (bus traffic, sleeps, console output) is recorded as a list of events. *)

From Stdlib Require Import ZArith List Bool String Lia Floats.
From Stdlib.Strings Require Import Byte.
From Stdlib Require Import Ascii HexadecimalString.
Import ListNotations.

Set Warnings "-inexact-float".
Local Open Scope Z_scope.

(** ** Python values *)

(** The integer value of an element of a [bytes] object. *)
Definition byte_to_Z (b : byte) : Z := Z.of_N (Byte.to_N b).

(** What is handed to [I2C.writeto]: a [bytes] literal, or a [str] literal
    given by its code points ([CMD_INIT] is written without the [b] prefix). *)
Inductive buffer : Type :=
| Bytes (data : list byte)
| Str (codepoints : list Z).

(** Conversion of a Python [int] to [float], as done by [int * float],
    [float / int] and [float - int].  Every integer the driver converts is
    below [2^20] or a small constant, where the conversion is exact. *)
Definition float_of_int (z : Z) : float := PrimFloat.of_uint63 (Uint63.of_Z z).

(** The exceptions that occur: [OSError] is what the bus raises,
    [IndexError] comes from subscripting. *)
Inductive exn : Type := OSError | IndexError.

Inductive outcome (A : Type) : Type :=
| Return (a : A)
| Raise (e : exn).
Arguments Return {A} a.
Arguments Raise {A} e.

(** ** The bus and the driver object *)

(** The answers of the bus.  A write is acknowledged or not; a read either
    fails or delivers as many bytes as were asked for, taken from a stream. *)
Record i2c : Type := mk_i2c {
  write_acks : list bool;
  read_data : list (option (nat -> byte))
}.

(** The instance attributes of [DFRobot_AHT20]. *)
Record driver : Type := mk_driver {
  _addr : Z;
  _humidity : float;
  _temperature : float
}.

Record world : Type := mk_world {
  self : driver;
  bus : i2c
}.

Inductive event : Type :=
| I2C_writeto (addr : Z) (buf : buffer) (acked : bool)
| I2C_readfrom (addr : Z) (nbytes : nat) (res : option (list byte))
| Sleep (seconds : float)
| Print (msg : string)
| PrintExn (e : exn).

(** ** The monad of driver code: state, exceptions, and emitted events *)

Record run (A : Type) : Type := mk_run {
  result : outcome A;
  trace : list event;
  final : world
}.
Arguments mk_run {A} result trace final.
Arguments result {A} r.
Arguments trace {A} r.
Arguments final {A} r.

Definition M (A : Type) : Type := world -> run A.

Definition ret {A} (a : A) : M A := fun w => mk_run (Return a) [] w.

Definition raise {A} (e : exn) : M A := fun w => mk_run (Raise e) [] w.

Definition bind {A B} (m : M A) (k : A -> M B) : M B := fun w =>
  match m w with
  | mk_run (Return a) t1 w1 =>
      match k a w1 with
      | mk_run res t2 w2 => mk_run res (t1 ++ t2) w2
      end
  | mk_run (Raise e) t1 w1 => mk_run (Raise e) t1 w1
  end.

(** [try: m except Exception as e: h e] *)
Definition try_except {A} (m : M A) (h : exn -> M A) : M A := fun w =>
  match m w with
  | mk_run (Return a) t1 w1 => mk_run (Return a) t1 w1
  | mk_run (Raise e) t1 w1 =>
      match h e w1 with
      | mk_run res t2 w2 => mk_run res (t1 ++ t2) w2
      end
  end.

Declare Scope py_scope.
Delimit Scope py_scope with py.
Notation "x <- c ;; k" := (bind c (fun x => k))
  (at level 61, c at next level, right associativity) : py_scope.
Notation "c ;; k" := (bind c (fun _ => k))
  (at level 61, right associativity) : py_scope.
Local Open Scope py_scope.

Definition emit (e : event) : M unit := fun w => mk_run (Return tt) [e] w.

Definition print (msg : string) : M unit := emit (Print msg).
Arguments print msg%_string.
Definition print_exn (e : exn) : M unit := emit (PrintExn e).
Definition sleep (seconds : float) : M unit := emit (Sleep seconds).

Definition get_self : M driver := fun w => mk_run (Return (self w)) [] w.

Definition set_humidity (v : float) : M unit := fun w =>
  mk_run (Return tt) []
    (mk_world (mk_driver (_addr (self w)) v (_temperature (self w))) (bus w)).

Definition set_temperature (v : float) : M unit := fun w =>
  mk_run (Return tt) []
    (mk_world (mk_driver (_addr (self w)) (_humidity (self w)) v) (bus w)).

(** [I2C.writeto(addr, buf)]: raises [OSError] when the device does not
    acknowledge (or the bus has nothing more to say). *)
Definition writeto (addr : Z) (buf : buffer) : M unit := fun w =>
  match write_acks (bus w) with
  | true :: acks =>
      mk_run (Return tt) [I2C_writeto addr buf true]
        (mk_world (self w) (mk_i2c acks (read_data (bus w))))
  | false :: acks =>
      mk_run (Raise OSError) [I2C_writeto addr buf false]
        (mk_world (self w) (mk_i2c acks (read_data (bus w))))
  | [] => mk_run (Raise OSError) [I2C_writeto addr buf false] w
  end.

(** [I2C.readfrom(addr, nbytes)]: exactly [nbytes] bytes, or [OSError]. *)
Definition readfrom (addr : Z) (nbytes : nat) : M (list byte) := fun w =>
  match read_data (bus w) with
  | Some stream :: rest =>
      let data := map stream (seq 0 nbytes) in
      mk_run (Return data) [I2C_readfrom addr nbytes (Some data)]
        (mk_world (self w) (mk_i2c (write_acks (bus w)) rest))
  | None :: rest =>
      mk_run (Raise OSError) [I2C_readfrom addr nbytes None]
        (mk_world (self w) (mk_i2c (write_acks (bus w)) rest))
  | [] => mk_run (Raise OSError) [I2C_readfrom addr nbytes None] w
  end.

(** [seq[i]] on a [bytes] object or a list: [IndexError] out of range. *)
Definition getitem (l : list byte) (i : nat) : M Z :=
  match nth_error l i with
  | Some b => ret (byte_to_Z b)
  | None => raise IndexError
  end.

(** ** The class [DFRobot_AHT20] *)

Definition AHT20_DEF_I2C_ADDR : Z := 0x38.
Definition CMD_INIT : buffer := Str [0xBE; 0x08; 0x00].
Definition CMD_INIT_TIME : float := 0.01%float.
Definition CMD_MEASUREMENT : buffer := Bytes [xac; x33; x00].
Definition CMD_MEASUREMENT_TIME : float := 0.08%float.
Definition CMD_MEASUREMENT_DATA_LEN : nat := 6.
Definition CMD_MEASUREMENT_DATA_CRC_LEN : nat := 7.
Definition CMD_SOFT_RESET : buffer := Bytes [xba].
Definition CMD_SOFT_RESET_TIME : float := 0.02%float.
Definition CMD_STATUS : buffer := Bytes [x71].

(** [__init__]: the class attributes [_humidity = 0.0], [_temperature = 0.0]
    are what a fresh instance reads. *)
Definition new_driver : driver := mk_driver AHT20_DEF_I2C_ADDR 0%float 0%float.

(** Truth value of a Python integer. *)
Definition truthy (z : Z) : bool := negb (z =? 0).

Definition _write_command (cmd : buffer) : M unit :=
  s <- get_self ;;
  writeto (_addr s) cmd.

Definition _read_data (len : nat) : M (list byte) :=
  try_except
    (s <- get_self ;; readfrom (_addr s) len)
    (fun e => print "Error in _read_data" ;; print_exn e ;; ret []).

Definition _get_status_data : M Z :=
  s <- get_self ;;
  writeto (_addr s) CMD_STATUS ;;
  status <- _read_data 1 ;;
  if truthy (Z.of_nat (List.length status))
  then getitem status 0
  else ret 0.

Definition _ready : M bool :=
  status <- _get_status_data ;;
  if truthy (Z.land status 0x08) then ret true else ret false.

Definition _init : M bool :=
  status <- _get_status_data ;;
  if truthy (Z.land status 0x08) then ret true
  else
    _write_command CMD_INIT ;;
    sleep CMD_INIT_TIME ;;
    status <- _get_status_data ;;
    if truthy (Z.land status 0x08) then ret true else ret false.

Definition begin : M bool :=
  ok <- _init ;;
  if negb (Bool.eqb ok true) then ret false else ret true.

Definition reset : M unit :=
  _write_command CMD_SOFT_RESET ;;
  sleep CMD_SOFT_RESET_TIME.

(** *** [_check_crc8]

    The register [crc] is a Python integer: inside the loops it is never
    masked, it only grows by one bit per shift, and it is cut to eight bits
    once, after the last byte. *)

(** One turn of the inner [while i > 0] loop. *)
Definition crc8_shift (crc : Z) : Z :=
  if truthy (Z.land crc 0x80)
  then Z.lxor (Z.shiftl crc 1) 0x31
  else Z.shiftl crc 1.

(** One turn of the outer [while pos < size] loop, for the byte [data[pos]]. *)
Definition crc8_byte (crc : Z) (d : byte) : Z :=
  Nat.iter 8 crc8_shift (Z.lxor crc (byte_to_Z d)).

(** The value of [crc] when the outer loop is left. *)
Definition crc8_loop (data : list byte) : Z := fold_left crc8_byte data 0xFF.

Definition _check_crc8 (crc8 : Z) (data : list byte) : bool :=
  let crc := crc8_loop data in
  let crc := Z.land crc 0xFF in
  if crc8 =? crc then true else false.

(** *** Decoding a frame (the body of [start_measurement_ready] after the
    checks), on arbitrary integers in place of the bytes *)

(** Lines 95-100: the humidity field, after the mask. *)
Definition humidity_field (d1 d2 d3 : Z) : Z :=
  let temp := d1 in
  let temp := Z.shiftl temp 8 in
  let temp := Z.lor temp d2 in
  let temp := Z.shiftl temp 4 in
  let temp := Z.lor temp (Z.shiftr d3 4) in
  Z.land temp 0xFFFFF.

(** [temp = (temp & 0xFFFFF) * 100.0; self._humidity = temp / 0x100000] *)
Definition humidity_of_raw (raw : Z) : float :=
  let temp := PrimFloat.mul (float_of_int raw) 100%float in
  PrimFloat.div temp (float_of_int 0x100000).

(** Lines 103-108: the temperature field, after the mask. *)
Definition temperature_field (d3 d4 d5 : Z) : Z :=
  let temp := Z.land d3 0x0F in
  let temp := Z.shiftl temp 8 in
  let temp := Z.lor temp d4 in
  let temp := Z.shiftl temp 8 in
  let temp := Z.lor temp d5 in
  Z.land temp 0xFFFFF.

(** [temp = (temp & 0xFFFFF) * 200.0; self._temperature = temp / 0x100000 - 50] *)
Definition temperature_of_raw (raw : Z) : float :=
  let temp := PrimFloat.mul (float_of_int raw) 200%float in
  PrimFloat.sub (PrimFloat.div temp (float_of_int 0x100000)) (float_of_int 50).

Definition start_measurement_ready (crc_en : bool) : M bool :=
  let recv_len := CMD_MEASUREMENT_DATA_LEN in
  rdy <- _ready ;;
  if Bool.eqb rdy false then
    print "Not calibrated" ;;
    ret false
  else
    let recv_len := if crc_en then CMD_MEASUREMENT_DATA_CRC_LEN else recv_len in
    _write_command CMD_MEASUREMENT ;;
    sleep CMD_MEASUREMENT_TIME ;;
    l_data <- _read_data recv_len ;;
    d0 <- getitem l_data 0 ;;
    if truthy (Z.land d0 0x80) then
      print "AHT20 is busy!" ;;
      ret false
    else
      crc_failed <-
        (if crc_en then
           crc8 <- getitem l_data 6 ;;
           ret (Bool.eqb (_check_crc8 crc8 (firstn 6 l_data)) false)
         else ret false) ;;
      if crc_failed then
        print "crc8 check failed." ;;
        ret false
      else
        d1 <- getitem l_data 1 ;;
        d2 <- getitem l_data 2 ;;
        d3 <- getitem l_data 3 ;;
        set_humidity (humidity_of_raw (humidity_field d1 d2 d3)) ;;
        d3 <- getitem l_data 3 ;;
        d4 <- getitem l_data 4 ;;
        d5 <- getitem l_data 5 ;;
        set_temperature (temperature_of_raw (temperature_field d3 d4 d5)) ;;
        ret true.

Definition get_temperature_F : M float :=
  s <- get_self ;;
  ret (PrimFloat.add (PrimFloat.mul (_temperature s) 1.8%float) (float_of_int 32)).

Definition get_temperature_C : M float :=
  s <- get_self ;;
  ret (_temperature s).

Definition get_humidity_RH : M float :=
  s <- get_self ;;
  ret (_humidity s).

(** ** The CRC-8 of the data sheet, as the specification words it

    Initial value [0xFF], polynomial [0x31], bytes in order, bits MSB-first,
    on an eight-bit register: every shift is reduced modulo 256. *)

Definition crc8_ref_shift (crc : Z) : Z :=
  if Z.testbit crc 7
  then Z.lxor ((2 * crc) mod 256) 0x31
  else (2 * crc) mod 256.

Definition crc8_ref_byte (crc : Z) (d : byte) : Z :=
  Nat.iter 8 crc8_ref_shift (Z.lxor crc (byte_to_Z d)).

Definition crc8_reference (data : list byte) : Z :=
  fold_left crc8_ref_byte data 0xFF.

(** The value of [crc] that [_check_crc8] compares its argument with. *)
Definition crc8_value (data : list byte) : Z := Z.land (crc8_loop data) 0xFF.

(** ** The frame layout, as the specification words it

    Bytes 1-2 and the high nibble of byte 3 are the humidity field, the low
    nibble of byte 3 and bytes 4-5 the temperature field. *)

Definition frame_byte (l_data : list byte) (i : nat) : Z :=
  byte_to_Z (nth i l_data x00).

Definition spec_raw_humidity (l_data : list byte) : Z :=
  frame_byte l_data 1 * 2 ^ 12 + frame_byte l_data 2 * 2 ^ 4
  + frame_byte l_data 3 / 2 ^ 4.

Definition spec_raw_temperature (l_data : list byte) : Z :=
  (frame_byte l_data 3 mod 2 ^ 4) * 2 ^ 16 + frame_byte l_data 4 * 2 ^ 8
  + frame_byte l_data 5.

(** The ranges of the decoded reading, with the comparisons of floats. *)
Definition in_humidity_range (h : float) : bool :=
  PrimFloat.leb 0%float h && PrimFloat.ltb h 100%float.

Definition in_temperature_range (t : float) : bool :=
  PrimFloat.leb (-50)%float t && PrimFloat.ltb t 150%float.

(** ** Reading the script and the events *)

(** A stream that starts with the given bytes. *)
Definition stream_of (l : list byte) : nat -> byte := fun i => nth i l x00.

(** The status that [_get_status_data] makes of the answer to its read. *)
Definition status_of (answer : option (nat -> byte)) : Z :=
  match answer with
  | Some stream => byte_to_Z (stream 0%nat)
  | None => 0
  end.

(** What [_read_data] emits on an answer. *)
Definition read_events (addr : Z) (len : nat) (answer : option (nat -> byte))
  : list event :=
  match answer with
  | Some stream => [I2C_readfrom addr len (Some (map stream (seq 0 len)))]
  | None =>
      [I2C_readfrom addr len None; Print "Error in _read_data";
       PrintExn OSError]
  end.

(** The buffers handed to [writeto], in order. *)
Fixpoint sent (t : list event) : list buffer :=
  match t with
  | [] => []
  | I2C_writeto _ buf _ :: t' => buf :: sent t'
  | _ :: t' => sent t'
  end.

Definition is_failed_write (e : event) : bool :=
  match e with I2C_writeto _ _ false => true | _ => false end.

Definition is_failed_read (e : event) : bool :=
  match e with I2C_readfrom _ _ None => true | _ => false end.

Definition write_failed (t : list event) : bool := existsb is_failed_write t.
Definition read_failed (t : list event) : bool := existsb is_failed_read t.
Definition bus_failed (t : list event) : bool :=
  write_failed t || read_failed t.

(** The status that the next call of [_get_status_data] will see, when its
    write is acknowledged. *)
Definition next_status (b : i2c) : Z :=
  match read_data b with
  | answer :: _ => status_of answer
  | [] => 0
  end.

Definition next_read_fails (b : i2c) : bool :=
  match read_data b with
  | Some _ :: _ => false
  | _ => true
  end.

(** The number of bytes [start_measurement_ready] asks for. *)
Definition frame_len (crc_en : bool) : nat :=
  if crc_en then CMD_MEASUREMENT_DATA_CRC_LEN else CMD_MEASUREMENT_DATA_LEN.

(** The driver object after a frame has been decoded into it. *)
Definition decoded (s : driver) (frame : nat -> byte) : driver :=
  mk_driver (_addr s)
    (humidity_of_raw
       (humidity_field (byte_to_Z (frame 1%nat)) (byte_to_Z (frame 2%nat))
          (byte_to_Z (frame 3%nat))))
    (temperature_of_raw
       (temperature_field (byte_to_Z (frame 3%nat)) (byte_to_Z (frame 4%nat))
          (byte_to_Z (frame 5%nat)))).

(** A calibrated device that answers a measurement with the frame
    [00 1B 33 5A 9A 3B] and its CRC. *)
Definition fixture_bus : i2c :=
  mk_i2c [true; true]
    [Some (stream_of [x18]);
     Some (stream_of [x00; x1b; x33; x5a; x9a; x3b; xbc])].

(** A driver object that holds an earlier reading. *)
Definition measured_driver : driver :=
  mk_driver AHT20_DEF_I2C_ADDR 42.5%float 21.25%float.

(** ** Checking a predicate on a whole range of raw values *)

(** [all_range k lo p]: [p] holds on [lo, lo + 2^k). *)
Fixpoint all_range (k : nat) (lo : Z) (p : Z -> bool) : bool :=
  match k with
  | O => p lo
  | S k' => all_range k' lo p && all_range k' (lo + 2 ^ Z.of_nat k') p
  end.

Definition reading_check (r : Z) : bool :=
  let h := humidity_of_raw r in
  in_humidity_range h && in_temperature_range (temperature_of_raw r)
  && ((r + 1 =? 0x100000) || PrimFloat.ltb h (humidity_of_raw (r + 1))).

(** ** Sequences of driver calls *)

(** The public methods that change something.  A caller that catches an
    exception goes on with the same driver object, so a sequence of calls
    is run on the final state of each call, whatever its outcome. *)
Inductive operation : Type :=
| Begin
| Reset
| Measure (crc_en : bool).

Definition run_operation (w : world) (op : operation) : world :=
  match op with
  | Begin => final (begin w)
  | Reset => final (reset w)
  | Measure crc_en => final (start_measurement_ready crc_en w)
  end.

Definition trace_of_operation (w : world) (op : operation) : list event :=
  match op with
  | Begin => trace (begin w)
  | Reset => trace (reset w)
  | Measure crc_en => trace (start_measurement_ready crc_en w)
  end.

Definition run_operations (ops : list operation) (w : world) : world :=
  fold_left run_operation ops w.

(** The stored reading is inside the ranges of the data sheet. *)
Definition reading_valid (s : driver) : bool :=
  in_humidity_range (_humidity s) && in_temperature_range (_temperature s).

(** A bus event that goes to the given address (other events pass). *)
Definition addressed_to (addr : Z) (e : event) : Prop :=
  match e with
  | I2C_writeto a _ _ => a = addr
  | I2C_readfrom a _ _ => a = addr
  | _ => True
  end.

(** ** More of the CRC-8 and of the frame layout *)

(** The inverse of one shift of the eight-bit register. *)
Definition crc8_ref_unshift (crc : Z) : Z :=
  if Z.odd crc then Z.lxor crc 0x31 / 2 + 128 else crc / 2.

(** On one register value: the shift is undone by [crc8_ref_unshift] and
    stays on eight bits. *)
Definition crc8_shift_check (x : Z) : bool :=
  (crc8_ref_unshift (crc8_ref_shift x) =? x)
  && (0 <=? crc8_ref_shift x) && (crc8_ref_shift x <? 256).

(** [celsius * 1.8 + 32], the expression of [get_temperature_F]. *)
Definition fahrenheit_of_celsius (celsius : float) : float :=
  PrimFloat.add (PrimFloat.mul celsius 1.8%float) (float_of_int 32).

(** On one raw value: the Fahrenheit value is in [-58, 302), and both
    scales grow from [r] to [r + 1]. *)
Definition temperature_check (r : Z) : bool :=
  let t := temperature_of_raw r in
  let f := fahrenheit_of_celsius t in
  PrimFloat.leb (-58)%float f && PrimFloat.ltb f 302%float
  && ((r + 1 =? 0x100000)
      || (PrimFloat.ltb t (temperature_of_raw (r + 1))
          && PrimFloat.ltb f
               (fahrenheit_of_celsius (temperature_of_raw (r + 1))))).

(** The byte with the low eight bits of an integer. *)
Definition byte_of_Z (z : Z) : byte :=
  match Byte.of_N (Z.to_N (z mod 256)) with
  | Some b => b
  | None => x00
  end.

(** The frame a device sends for two raw values, by the layout of the data
    sheet: what the decoding has to undo. *)
Definition pack_frame (status : byte) (raw_h raw_t : Z) : list byte :=
  [status;
   byte_of_Z (raw_h / 2 ^ 12);
   byte_of_Z (raw_h / 2 ^ 4);
   byte_of_Z ((raw_h mod 2 ^ 4) * 2 ^ 4 + raw_t / 2 ^ 16);
   byte_of_Z (raw_t / 2 ^ 8);
   byte_of_Z raw_t].

(** Bit 3 of a status byte. *)
Definition ready_bit (status : Z) : bool := truthy (Z.land status 0x08).

(** Bus traffic, as opposed to sleeping and printing. *)
Definition is_bus_event (e : event) : bool :=
  match e with
  | I2C_writeto _ _ _ => true
  | I2C_readfrom _ _ _ => true
  | _ => false
  end.

(** The read answers left after one of them has been consumed. *)
Definition after_read (b : i2c) : i2c :=
  mk_i2c (write_acks b) (tl (read_data b)).

(** ** What goes over the wire

    [writeto] takes its argument through the buffer protocol.  A [bytes]
    object gives its bytes; a MicroPython [str] gives the UTF-8 encoding of
    its code points, so a code point from 0x80 on takes more than one
    byte. *)

Definition utf8_encode (c : Z) : list byte :=
  if c <? 0x80 then
    [byte_of_Z c]
  else if c <? 0x800 then
    [byte_of_Z (Z.lor 0xC0 (Z.shiftr c 6));
     byte_of_Z (Z.lor 0x80 (Z.land c 0x3F))]
  else if c <? 0x10000 then
    [byte_of_Z (Z.lor 0xE0 (Z.shiftr c 12));
     byte_of_Z (Z.lor 0x80 (Z.land (Z.shiftr c 6) 0x3F));
     byte_of_Z (Z.lor 0x80 (Z.land c 0x3F))]
  else
    [byte_of_Z (Z.lor 0xF0 (Z.shiftr c 18));
     byte_of_Z (Z.lor 0x80 (Z.land (Z.shiftr c 12) 0x3F));
     byte_of_Z (Z.lor 0x80 (Z.land (Z.shiftr c 6) 0x3F));
     byte_of_Z (Z.lor 0x80 (Z.land c 0x3F))].

Definition buffer_bytes (buf : buffer) : list byte :=
  match buf with
  | Bytes data => data
  | Str codepoints => flat_map utf8_encode codepoints
  end.

(** The initialisation command of the sensor, as the specification gives
    it: INIT = {0xBE, 0x08, 0x00}. *)
Definition INIT_COMMAND : list byte := [xbe; x08; x00].

(** ** Scripts: code outside the driver class

    [main.py] and [i2c.py] raise exceptions of their own and catch
    [OSError] only. *)

Inductive py_exn : Type :=
| Builtin (e : exn)
| SystemExit (code : Z)
| ValueError (msg : string).

Inductive script_outcome (A : Type) : Type :=
| Done (a : A)
| Raised (e : py_exn).
Arguments Done {A} a.
Arguments Raised {A} e.

Record script_run (S A : Type) : Type := mk_script_run {
  script_result : script_outcome A;
  script_trace : list event;
  script_final : S
}.
Arguments mk_script_run {S A} script_result script_trace script_final.
Arguments script_result {S A} s.
Arguments script_trace {S A} s.
Arguments script_final {S A} s.

Definition Script (S A : Type) : Type := S -> script_run S A.

Definition script_ret {S A} (a : A) : Script S A :=
  fun w => mk_script_run (Done a) [] w.

Definition script_raise {S A} (e : py_exn) : Script S A :=
  fun w => mk_script_run (Raised e) [] w.

Definition script_bind {S A B} (m : Script S A) (k : A -> Script S B)
  : Script S B := fun w =>
  match m w with
  | mk_script_run (Done a) t1 w1 =>
      match k a w1 with
      | mk_script_run res t2 w2 => mk_script_run res (t1 ++ t2) w2
      end
  | mk_script_run (Raised e) t1 w1 => mk_script_run (Raised e) t1 w1
  end.

(** [try: m except OSError as e: h e] *)
Definition try_except_OSError {S A} (m : Script S A) (h : exn -> Script S A)
  : Script S A := fun w =>
  match m w with
  | mk_script_run (Raised (Builtin OSError)) t1 w1 =>
      match h OSError w1 with
      | mk_script_run res t2 w2 => mk_script_run res (t1 ++ t2) w2
      end
  | r => r
  end.

Declare Scope script_scope.
Delimit Scope script_scope with script.
Notation "x <- c ;; k" := (script_bind c (fun x => k))
  (at level 61, c at next level, right associativity) : script_scope.
Notation "c ;; k" := (script_bind c (fun _ => k))
  (at level 61, right associativity) : script_scope.

(** ** main.py *)

(** A call into the driver. *)
Definition call {A} (m : M A) : Script world A := fun w =>
  match m w with
  | mk_run (Return a) t w' => mk_script_run (Done a) t w'
  | mk_run (Raise e) t w' => mk_script_run (Raised (Builtin e)) t w'
  end.

(** [sys.exit(code)] *)
Definition sys_exit {S A} (code : Z) : Script S A :=
  script_raise (SystemExit code).

Definition double_quote : string := String (ascii_of_nat 34) EmptyString.
Definition crlf : string :=
  String (ascii_of_nat 13) (String (ascii_of_nat 10) EmptyString).

Section ReadSensor.
(** The conversion [format(x, '3.1f')] of the f-strings. *)
Variable format_3_1f : float -> string.

Definition reading_json (temperature humidity : float) : string :=
  ("{" ++ double_quote ++ "temperature" ++ double_quote ++ ": "
   ++ format_3_1f temperature ++ ", "
   ++ double_quote ++ "humidity" ++ double_quote ++ ": "
   ++ format_3_1f humidity ++ "}" ++ crlf)%string.

Definition read_sensor : Script world (option string) :=
  try_except_OSError
    (ok <- call begin ;;
     (if negb (Bool.eqb ok true) then
        call (print "Failed to start sensor") ;;
        sys_exit 1
      else script_ret tt) ;;
     call (start_measurement_ready false) ;;
     temperature <- call get_temperature_C ;;
     humidity <- call get_humidity_RH ;;
     call (print ("Temperature: " ++ format_3_1f temperature ++ " C")) ;;
     call (print ("Humidity: " ++ format_3_1f humidity ++ " %")) ;;
     script_ret (Some (reading_json temperature humidity)))%script
    (fun e =>
       (call (print "Failed to read sensor.") ;;
        script_ret None)%script).

(** The first [n] turns of [while True: read_sensor(sensor); time.sleep(1)]. *)
Fixpoint poll (n : nat) : Script world unit :=
  match n with
  | O => script_ret tt
  | S n' =>
      (read_sensor ;;
       call (sleep (float_of_int 1)) ;;
       poll n')%script
  end.
End ReadSensor.

(** ** i2c.py *)

(** [seq[start:stop]] with integer bounds: negative bounds count from the
    end, bounds outside the sequence are clamped. *)
Definition slice_bound (len i : Z) : Z :=
  let i := if i <? 0 then i + len else i in
  if i <? 0 then 0 else if len <? i then len else i.

Definition py_slice (l : list byte) (start stop : Z) : list byte :=
  let len := Z.of_nat (List.length l) in
  let lo := slice_bound len start in
  let hi := slice_bound len stop in
  firstn (Z.to_nat (hi - lo)) (skipn (Z.to_nat lo) l).

(** The [bytearray] objects, by reference, and the bus. *)
Record device_world : Type := mk_device_world {
  heap : list (list byte);
  wires : i2c
}.

(** A new [bytearray] (or [bytes]) object; its reference is its place in
    the heap. *)
Definition alloc (data : list byte) : Script device_world nat := fun w =>
  mk_script_run (Done (List.length (heap w))) []
    (mk_device_world (heap w ++ [data]) (wires w)).

(** The content of an object. *)
Definition deref (r : nat) : Script device_world (list byte) := fun w =>
  mk_script_run (Done (nth r (heap w) [])) [] w.

(** Overwrites the content of an object in place. *)
Fixpoint store (h : list (list byte)) (r : nat) (data : list byte)
  : list (list byte) :=
  match h, r with
  | [], _ => []
  | _ :: h', O => data :: h'
  | x :: h', S r' => x :: store h' r' data
  end.

(** [i2c.writeto(addr, data)] *)
Definition i2c_writeto (addr : Z) (data : list byte)
  : Script device_world unit := fun w =>
  match write_acks (wires w) with
  | true :: acks =>
      mk_script_run (Done tt) [I2C_writeto addr (Bytes data) true]
        (mk_device_world (heap w) (mk_i2c acks (read_data (wires w))))
  | false :: acks =>
      mk_script_run (Raised (Builtin OSError))
        [I2C_writeto addr (Bytes data) false]
        (mk_device_world (heap w) (mk_i2c acks (read_data (wires w))))
  | [] =>
      mk_script_run (Raised (Builtin OSError))
        [I2C_writeto addr (Bytes data) false] w
  end.

(** [i2c.readfrom_into(addr, buf)]: reads [len(buf)] bytes into [buf]. *)
Definition i2c_readfrom_into (addr : Z) (buf : nat)
  : Script device_world unit := fun w =>
  let nbytes := List.length (nth buf (heap w) []) in
  match read_data (wires w) with
  | Some stream :: rest =>
      let data := map stream (seq 0 nbytes) in
      mk_script_run (Done tt) [I2C_readfrom addr nbytes (Some data)]
        (mk_device_world (store (heap w) buf data)
           (mk_i2c (write_acks (wires w)) rest))
  | None :: rest =>
      mk_script_run (Raised (Builtin OSError))
        [I2C_readfrom addr nbytes None]
        (mk_device_world (heap w) (mk_i2c (write_acks (wires w)) rest))
  | [] =>
      mk_script_run (Raised (Builtin OSError))
        [I2C_readfrom addr nbytes None] w
  end.

Module I2CDevice.

(** The attributes of an [I2CDevice]; its [i2c] is the bus of the world. *)
Record obj : Type := mk_obj { device_address : Z }.

Definition __probe_for_device (self : obj) : Script device_world unit :=
  try_except_OSError
    (i2c_writeto (device_address self) [])
    (fun _ =>
       try_except_OSError
         (result <- alloc [x00] ;;
          i2c_readfrom_into (device_address self) result)%script
         (fun _ =>
            script_raise
              (ValueError
                 ("No I2C device at address: 0x"
                  ++ NilZero.string_of_int
                       (Z.to_hex_int (device_address self)))%string))).

Definition __init__ (device_address : Z) (probe : bool)
  : Script device_world obj :=
  let self := mk_obj device_address in
  ((if probe then __probe_for_device self else script_ret tt) ;;
   script_ret self)%script.

(** [buf = buf[start:end]] binds the name to a new [bytearray], the copy
    that slicing makes; the caller's object is the argument [buf]. *)
Definition readinto (self : obj) (buf : nat) (start : Z) (end_ : option Z)
  : Script device_world unit :=
  (content <- deref buf ;;
   let end_ :=
     match end_ with
     | None => Z.of_nat (List.length content)
     | Some e => e
     end in
   buf <- alloc (py_slice content start end_) ;;
   i2c_readfrom_into (device_address self) buf)%script.

Definition write (self : obj) (buf : nat) (start : Z) (end_ : option Z)
  : Script device_world unit :=
  (content <- deref buf ;;
   let end_ :=
     match end_ with
     | None => Z.of_nat (List.length content)
     | Some e => e
     end in
   buf <- alloc (py_slice content start end_) ;;
   data <- deref buf ;;
   i2c_writeto (device_address self) data)%script.

End I2CDevice.


(** ** Tactics for running the driver against a script *)

Arguments byte_to_Z : simpl never.
Arguments _check_crc8 : simpl never.
Arguments humidity_of_raw : simpl never.
Arguments temperature_of_raw : simpl never.
Arguments humidity_field : simpl never.
Arguments temperature_field : simpl never.
Arguments Z.land : simpl never.

(** Runs the code as far as the script is known. *)
Ltac exec :=
  cbv beta iota zeta delta
    [start_measurement_ready begin reset _init _ready _get_status_data
     _read_data _write_command writeto readfrom getitem try_except bind ret
     raise emit print print_exn sleep get_self set_humidity set_temperature
     result trace final self bus write_acks read_data _addr _humidity
     _temperature CMD_MEASUREMENT_DATA_LEN CMD_MEASUREMENT_DATA_CRC_LEN];
  simpl.

Ltac split_world w :=
  let addr := fresh "addr" in
  let h := fresh "h" in
  let t := fresh "t" in
  let acks := fresh "acks" in
  let reads := fresh "reads" in
  destruct w as [[addr h t] [acks reads]].

(** Splits on the outermost test the run is stuck at. *)
Ltac branch :=
  match goal with
  | |- context [if ?c then _ else _] =>
      lazymatch c with
      | context [if _ then _ else _] => fail
      | _ => let E := fresh "E" in destruct c eqn:E
      end
  end.

Ltac close_in :=
  repeat match goal with
  | H : In _ _ |- _ => simpl in H
  | H : _ \/ _ |- _ => destruct H as [H|H]
  | H : False |- _ => destruct H
  | H : _ = _ |- _ => discriminate H
  end.

Ltac finish :=
  simpl; repeat split; intros;
  try discriminate; try reflexivity; try (eexists; reflexivity);
  try (exfalso; close_in).

(** ** Bytes and bits *)

Lemma byte_to_Z_range (b : byte) : 0 <= byte_to_Z b < 256.
Proof.
  unfold byte_to_Z. pose proof (Byte.to_N_bounded b). lia.
Qed.

Lemma land_255_mod (x : Z) : Z.land x 0xFF = x mod 256.
Proof. exact (Z.land_ones x 8 ltac:(lia)). Qed.

Lemma land_pow2_testbit (x n : Z) :
  0 <= n -> Z.land x (2 ^ n) = if Z.testbit x n then 2 ^ n else 0.
Proof.
  intros Hn. apply Z.bits_inj'. intros k Hk.
  rewrite Z.land_spec, Z.pow2_bits_eqb by assumption.
  destruct (Z.eqb_spec n k) as [->|Hne].
  - destruct (Z.testbit x k); simpl; symmetry.
    + apply Z.pow2_bits_true; assumption.
    + apply Z.bits_0.
  - rewrite andb_false_r. symmetry. destruct (Z.testbit x n).
    + apply Z.pow2_bits_false; assumption.
    + apply Z.bits_0.
Qed.

Lemma truthy_land_0x80 (x : Z) : truthy (Z.land x 0x80) = Z.testbit x 7.
Proof.
  unfold truthy. change 0x80 with (2 ^ 7).
  rewrite land_pow2_testbit by lia. destruct (Z.testbit x 7); reflexivity.
Qed.

Lemma land_lxor_distr (a b m : Z) :
  Z.land (Z.lxor a b) m = Z.lxor (Z.land a m) (Z.land b m).
Proof.
  apply Z.bits_inj'. intros k _.
  rewrite Z.land_spec, !Z.lxor_spec, !Z.land_spec.
  destruct (Z.testbit a k), (Z.testbit b k), (Z.testbit m k); reflexivity.
Qed.

Lemma land_255_small (d : Z) : 0 <= d < 256 -> Z.land d 0xFF = d.
Proof. intros H. rewrite land_255_mod. apply Z.mod_small. exact H. Qed.

(** ** The unmasked register agrees with the eight-bit one on its low byte *)

Lemma crc8_shift_low (x : Z) :
  Z.land (crc8_shift x) 0xFF = crc8_ref_shift (Z.land x 0xFF).
Proof.
  unfold crc8_shift, crc8_ref_shift.
  rewrite truthy_land_0x80.
  replace (Z.testbit (Z.land x 0xFF) 7) with (Z.testbit x 7)
    by (rewrite Z.land_spec; change (Z.testbit 0xFF 7) with true;
        now rewrite andb_true_r).
  assert (Hs : Z.land (Z.shiftl x 1) 0xFF = (2 * Z.land x 0xFF) mod 256).
  { rewrite !land_255_mod, Z.shiftl_mul_pow2 by lia.
    change (2 ^ 1) with 2. rewrite (Z.mul_comm x 2).
    now rewrite Z.mul_mod_idemp_r by lia. }
  destruct (Z.testbit x 7).
  - rewrite land_lxor_distr, Hs. reflexivity.
  - exact Hs.
Qed.

Lemma crc8_shift_iter_low (n : nat) (x : Z) :
  Z.land (Nat.iter n crc8_shift x) 0xFF
  = Nat.iter n crc8_ref_shift (Z.land x 0xFF).
Proof.
  induction n as [|n IH]; simpl.
  - reflexivity.
  - rewrite crc8_shift_low, IH. reflexivity.
Qed.

Lemma crc8_byte_low (crc : Z) (d : byte) :
  Z.land (crc8_byte crc d) 0xFF = crc8_ref_byte (Z.land crc 0xFF) d.
Proof.
  unfold crc8_byte, crc8_ref_byte.
  rewrite crc8_shift_iter_low, land_lxor_distr.
  rewrite (land_255_small (byte_to_Z d)) by apply byte_to_Z_range.
  reflexivity.
Qed.

Lemma crc8_fold_low (data : list byte) (crc : Z) :
  Z.land (fold_left crc8_byte data crc) 0xFF
  = fold_left crc8_ref_byte data (Z.land crc 0xFF).
Proof.
  revert crc. induction data as [|d data IH]; intros crc; simpl.
  - reflexivity.
  - rewrite IH, crc8_byte_low. reflexivity.
Qed.

Lemma crc8_loop_low (data : list byte) :
  Z.land (crc8_loop data) 0xFF = crc8_reference data.
Proof.
  unfold crc8_loop, crc8_reference. rewrite crc8_fold_low. reflexivity.
Qed.

Lemma check_crc8_spec (crc8 : Z) (data : list byte) :
  _check_crc8 crc8 data = true <-> crc8 = Z.land (crc8_loop data) 0xFF.
Proof.
  unfold _check_crc8. cbv zeta.
  destruct (Z.eqb_spec crc8 (Z.land (crc8_loop data) 0xFF)); split;
    congruence.
Qed.

(** C4. On every six-byte data sequence and for every candidate check value,
    [_check_crc8] answers [True] exactly when the candidate is the reference
    CRC-8 of the data (initial value 0xFF, polynomial 0x31, bytes in order,
    bits MSB-first, on eight bits). *)
Theorem check_crc8_iff_reference (crc8 : Z) (data : list byte) :
  List.length data = 6%nat ->
  (_check_crc8 crc8 data = true <-> crc8 = crc8_reference data).
Proof.
  intros _. rewrite check_crc8_spec, crc8_loop_low. reflexivity.
Qed.

Lemma check_crc8_iff_reference_witness :
  _check_crc8 188 [x00; x1b; x33; x5a; x9a; x3b] = true
  <-> 188 = crc8_reference [x00; x1b; x33; x5a; x9a; x3b].
Proof.
  apply (check_crc8_iff_reference 188 [x00; x1b; x33; x5a; x9a; x3b]).
  reflexivity.
Defined.

Lemma byte_of_value (v : Z) : 0 <= v < 256 -> exists c : byte, byte_to_Z c = v.
Proof.
  intros Hv. destruct (Byte.of_N (Z.to_N v)) as [c|] eqn:E.
  - exists c. unfold byte_to_Z. rewrite (Byte.to_of_N _ E). lia.
  - apply Byte.of_N_None_iff in E. lia.
Qed.

Lemma crc8_value_range (data : list byte) : 0 <= crc8_value data < 256.
Proof.
  unfold crc8_value. rewrite land_255_mod. apply Z.mod_pos_bound. lia.
Qed.

(** C5. The CRC is a function of the data alone, and on every six-byte
    frame the computed CRC is a byte which, appended to the frame and
    validated the way [start_measurement_ready] does it
    ([_check_crc8(l_data[6], l_data[:6])]), is accepted. *)
Theorem check_crc8_roundtrip (data : list byte) :
  List.length data = 6%nat ->
  (forall data', data' = data -> crc8_value data' = crc8_value data) /\
  exists c : byte,
    byte_to_Z c = crc8_value data /\
    let l_data := data ++ [c] in
    nth_error l_data 6 = Some c /\
    firstn 6 l_data = data /\
    _check_crc8 (byte_to_Z c) (firstn 6 l_data) = true.
Proof.
  intros Hlen. split.
  - intros data' ->. reflexivity.
  - destruct (byte_of_value (crc8_value data) (crc8_value_range data))
      as [c Hc].
    exists c. split; [exact Hc|]. cbv zeta.
    assert (Hfirst : firstn 6 (data ++ [c]) = data).
    { rewrite <- Hlen, firstn_app, Nat.sub_diag, firstn_all. simpl.
      apply app_nil_r. }
    repeat split.
    + rewrite nth_error_app2 by lia. rewrite Hlen. reflexivity.
    + exact Hfirst.
    + rewrite Hfirst. apply check_crc8_spec. exact Hc.
Qed.

Lemma check_crc8_roundtrip_witness :
  exists c : byte,
    byte_to_Z c = crc8_value [x00; x1b; x33; x5a; x9a; x3b] /\
    _check_crc8 (byte_to_Z c)
      (firstn 6 ([x00; x1b; x33; x5a; x9a; x3b] ++ [c])) = true.
Proof.
  destruct (check_crc8_roundtrip [x00; x1b; x33; x5a; x9a; x3b] eq_refl)
    as [_ [c [Hc [_ [_ Hok]]]]].
  exists c. split; [exact Hc | exact Hok].
Defined.

(** ** The two fields of a frame *)

Lemma land_shiftl_small (a b n : Z) :
  0 <= n -> 0 <= b < 2 ^ n -> Z.land (Z.shiftl a n) b = 0.
Proof.
  intros Hn Hb. apply Z.bits_inj'. intros k Hk.
  rewrite Z.land_spec, Z.bits_0.
  destruct (Z.ltb_spec k n) as [Hlt|Hge].
  - rewrite Z.shiftl_spec by assumption.
    rewrite Z.testbit_neg_r by lia. reflexivity.
  - replace b with (b mod 2 ^ n) by (apply Z.mod_small; exact Hb).
    rewrite Z.mod_pow2_bits_high by lia. apply andb_false_r.
Qed.

Lemma lor_shiftl_add (a b n : Z) :
  0 <= n -> 0 <= b < 2 ^ n -> Z.lor (Z.shiftl a n) b = a * 2 ^ n + b.
Proof.
  intros Hn Hb.
  pose proof (land_shiftl_small a b n Hn Hb) as Hdisj.
  rewrite <- Z.lxor_lor by exact Hdisj.
  rewrite <- Z.add_nocarry_lxor by exact Hdisj.
  rewrite Z.shiftl_mul_pow2 by exact Hn. reflexivity.
Qed.

Lemma land_0xFFFFF_range (x : Z) : 0 <= Z.land x 0xFFFFF < 0x100000.
Proof.
  change 0xFFFFF with (Z.ones 20). rewrite Z.land_ones by lia.
  apply Z.mod_pos_bound. lia.
Qed.

Lemma humidity_field_range (d1 d2 d3 : Z) :
  0 <= humidity_field d1 d2 d3 < 0x100000.
Proof. apply land_0xFFFFF_range. Qed.

Lemma temperature_field_range (d3 d4 d5 : Z) :
  0 <= temperature_field d3 d4 d5 < 0x100000.
Proof. apply land_0xFFFFF_range. Qed.

Lemma humidity_field_bytes (d1 d2 d3 : Z) :
  0 <= d1 < 256 -> 0 <= d2 < 256 -> 0 <= d3 < 256 ->
  humidity_field d1 d2 d3 = d1 * 2 ^ 12 + d2 * 2 ^ 4 + d3 / 2 ^ 4.
Proof.
  intros H1 H2 H3. unfold humidity_field. cbv zeta.
  assert (H3' : 0 <= d3 / 2 ^ 4 < 2 ^ 4).
  { split; [apply Z.div_pos; lia | apply Z.div_lt_upper_bound; lia]. }
  rewrite (lor_shiftl_add d1 d2 8) by lia.
  rewrite Z.shiftr_div_pow2 by lia.
  rewrite lor_shiftl_add by lia.
  change 0xFFFFF with (Z.ones 20). rewrite Z.land_ones by lia.
  rewrite Z.mod_small by lia. lia.
Qed.

Lemma temperature_field_bytes (d3 d4 d5 : Z) :
  0 <= d3 < 256 -> 0 <= d4 < 256 -> 0 <= d5 < 256 ->
  temperature_field d3 d4 d5 = (d3 mod 2 ^ 4) * 2 ^ 16 + d4 * 2 ^ 8 + d5.
Proof.
  intros H3 H4 H5. unfold temperature_field. cbv zeta.
  change 0x0F with (Z.ones 4). rewrite (Z.land_ones d3 4) by lia.
  pose proof (Z.mod_pos_bound d3 (2 ^ 4) ltac:(lia)) as H3'.
  rewrite (lor_shiftl_add (d3 mod 2 ^ 4) d4 8) by lia.
  rewrite lor_shiftl_add by lia.
  change 0xFFFFF with (Z.ones 20). rewrite Z.land_ones by lia.
  rewrite Z.mod_small by lia. lia.
Qed.

(** ** The decoded values on the whole range of raw values *)

Lemma all_range_spec (k : nat) (p : Z -> bool) :
  forall lo, all_range k lo p = true ->
  forall r, lo <= r < lo + 2 ^ Z.of_nat k -> p r = true.
Proof.
  induction k as [|k IH]; intros lo Hall r Hr.
  - simpl in *. replace r with lo by lia. exact Hall.
  - cbn [all_range] in Hall. apply andb_true_iff in Hall as [Hlo Hhi].
    rewrite Nat2Z.inj_succ, Z.pow_succ_r in Hr by lia.
    destruct (Z.lt_ge_cases r (lo + 2 ^ Z.of_nat k)) as [Hlt|Hge].
    + apply (IH lo Hlo). lia.
    + apply (IH _ Hhi). lia.
Qed.

Lemma reading_check_all : all_range 20 0 reading_check = true.
Proof. vm_compute. reflexivity. Qed.

Lemma reading_check_holds (r : Z) :
  0 <= r < 0x100000 -> reading_check r = true.
Proof.
  intros Hr. apply (all_range_spec 20 reading_check 0 reading_check_all).
  exact Hr.
Qed.

Lemma humidity_of_raw_range (r : Z) :
  0 <= r < 0x100000 -> in_humidity_range (humidity_of_raw r) = true.
Proof.
  intros Hr. pose proof (reading_check_holds r Hr) as H.
  unfold reading_check in H. cbv zeta in H.
  apply andb_true_iff in H as [H _]. apply andb_true_iff in H as [H _].
  exact H.
Qed.

Lemma temperature_of_raw_range (r : Z) :
  0 <= r < 0x100000 -> in_temperature_range (temperature_of_raw r) = true.
Proof.
  intros Hr. pose proof (reading_check_holds r Hr) as H.
  unfold reading_check in H. cbv zeta in H.
  apply andb_true_iff in H as [H _]. apply andb_true_iff in H as [_ H].
  exact H.
Qed.

Lemma humidity_of_raw_step (r : Z) :
  0 <= r -> r + 1 < 0x100000 ->
  PrimFloat.ltb (humidity_of_raw r) (humidity_of_raw (r + 1)) = true.
Proof.
  intros H0 H1. pose proof (reading_check_holds r ltac:(lia)) as H.
  unfold reading_check in H. cbv zeta in H.
  apply andb_true_iff in H as [_ H]. apply orb_true_iff in H as [H|H].
  - apply Z.eqb_eq in H. lia.
  - exact H.
Qed.

(** The order of floats is transitive. *)
Lemma SFltb_trans (x y z : spec_float) :
  SFltb x y = true -> SFltb y z = true -> SFltb x z = true.
Proof.
  unfold SFltb, SFcompare.
  destruct x as [sx|sx| |sx mx ex], y as [sy|sy| |sy my ey],
    z as [sz|sz| |sz mz ez];
    try discriminate;
    try (destruct sx; discriminate);
    try (destruct sy; discriminate);
    try (destruct sx, sy; discriminate);
    try (destruct sy, sz; discriminate);
    try (destruct sx, sy, sz; (discriminate || reflexivity)).
  destruct sx, sy, sz; try discriminate; try reflexivity;
    rewrite !Pos.compare_cont_spec; cbn [Pos.switch_Eq CompOpp];
    destruct (Z.compare_spec ex ey), (Z.compare_spec ey ez),
      (Z.compare_spec ex ez); try discriminate; try lia; try reflexivity;
    destruct (Pos.compare_spec mx my), (Pos.compare_spec my mz),
      (Pos.compare_spec mx mz); try discriminate; try lia; try reflexivity.
Qed.

Lemma float_ltb_trans (x y z : float) :
  PrimFloat.ltb x y = true -> PrimFloat.ltb y z = true ->
  PrimFloat.ltb x z = true.
Proof. rewrite !ltb_spec. apply SFltb_trans. Qed.

Lemma humidity_of_raw_increasing (n : nat) (r : Z) :
  0 <= r -> r + 1 + Z.of_nat n < 0x100000 ->
  PrimFloat.ltb (humidity_of_raw r) (humidity_of_raw (r + 1 + Z.of_nat n))
  = true.
Proof.
  intros H0. induction n as [|n IH]; intros Hhi.
  - rewrite Z.add_0_r. apply humidity_of_raw_step; lia.
  - apply (float_ltb_trans _ (humidity_of_raw (r + 1 + Z.of_nat n))).
    + apply IH. lia.
    + replace (r + 1 + Z.of_nat (S n)) with (r + 1 + Z.of_nat n + 1) by lia.
      apply humidity_of_raw_step; lia.
Qed.

(** C6. On every 20-bit raw value the decoded humidity
    [r * 100.0 / 0x100000] lies in [0, 100) and grows strictly with [r], and
    the decoded temperature [r * 200.0 / 0x100000 - 50] lies in [-50, 150);
    the order is the order of floats. *)
Theorem decoded_reading_monotone_and_bounded (r : Z) :
  0 <= r < 0x100000 ->
  let humidity :=
    PrimFloat.div (PrimFloat.mul (float_of_int r) 100%float)
      (float_of_int 0x100000) in
  let temperature :=
    PrimFloat.sub
      (PrimFloat.div (PrimFloat.mul (float_of_int r) 200%float)
         (float_of_int 0x100000))
      (float_of_int 50) in
  humidity = humidity_of_raw r /\
  temperature = temperature_of_raw r /\
  PrimFloat.leb 0%float humidity = true /\
  PrimFloat.ltb humidity 100%float = true /\
  PrimFloat.leb (-50)%float temperature = true /\
  PrimFloat.ltb temperature 150%float = true /\
  (forall r', r < r' < 0x100000 ->
     PrimFloat.ltb humidity (humidity_of_raw r') = true).
Proof.
  intros Hr. cbv zeta.
  change (PrimFloat.div (PrimFloat.mul (float_of_int r) 100%float)
            (float_of_int 0x100000)) with (humidity_of_raw r).
  change (PrimFloat.sub
            (PrimFloat.div (PrimFloat.mul (float_of_int r) 200%float)
               (float_of_int 0x100000)) (float_of_int 50))
    with (temperature_of_raw r).
  pose proof (humidity_of_raw_range r Hr) as Hh.
  pose proof (temperature_of_raw_range r Hr) as Ht.
  unfold in_humidity_range in Hh. unfold in_temperature_range in Ht.
  apply andb_true_iff in Hh as [Hh0 Hh1].
  apply andb_true_iff in Ht as [Ht0 Ht1].
  repeat split; try assumption.
  intros r' Hr'.
  replace r' with (r + 1 + Z.of_nat (Z.to_nat (r' - r - 1))) by lia.
  apply humidity_of_raw_increasing; lia.
Qed.

Lemma decoded_reading_monotone_and_bounded_witness :
  PrimFloat.ltb (humidity_of_raw 0x1B335) 100%float = true /\
  PrimFloat.ltb (humidity_of_raw 0x1B335) (humidity_of_raw 0xA9A3B) = true.
Proof.
  destruct (decoded_reading_monotone_and_bounded 0x1B335 ltac:(lia))
    as (_ & _ & _ & Hlt & _ & _ & Hmono).
  split; [exact Hlt | apply Hmono; lia].
Defined.

(** ** Running the driver against a script *)

Lemma measurement_success_inv (crc_en : bool) (w : world) :
  result (start_measurement_ready crc_en w) = Return true ->
  exists acks status frame reads,
    write_acks (bus w) = true :: true :: acks /\
    read_data (bus w) = Some status :: Some frame :: reads /\
    truthy (Z.land (byte_to_Z (status 0%nat)) 0x08) = true /\
    truthy (Z.land (byte_to_Z (frame 0%nat)) 0x80) = false /\
    (crc_en = true ->
     _check_crc8 (byte_to_Z (frame 6%nat)) (map frame (seq 0 6)) = true) /\
    start_measurement_ready crc_en w =
      mk_run (Return true)
        [I2C_writeto (_addr (self w)) CMD_STATUS true;
         I2C_readfrom (_addr (self w)) 1 (Some [status 0%nat]);
         I2C_writeto (_addr (self w)) CMD_MEASUREMENT true;
         Sleep CMD_MEASUREMENT_TIME;
         I2C_readfrom (_addr (self w)) (frame_len crc_en)
           (Some (map frame (seq 0 (frame_len crc_en))))]
        (mk_world (decoded (self w) frame) (mk_i2c acks reads)).
Proof.
  split_world w.
  destruct acks as [|[] [|[] acks]];
    destruct reads as [|[status|] [|[frame|] reads]]; destruct crc_en;
    exec; try discriminate; repeat (branch; exec; try discriminate).
  all: intros _; exists acks, status, frame, reads; repeat split;
    try assumption; try discriminate.
  intros _.
  match goal with
  | H : Bool.eqb ?c false = false |- ?c = true =>
      destruct c; [reflexivity | discriminate H]
  end.
Qed.

Lemma measurement_failure_keeps_self (crc_en : bool) (w : world) :
  result (start_measurement_ready crc_en w) <> Return true ->
  self (final (start_measurement_ready crc_en w)) = self w.
Proof.
  split_world w.
  destruct acks as [|[] [|[] acks]];
    destruct reads as [|[status|] [|[frame|] reads]]; destruct crc_en;
    exec; try reflexivity; repeat (branch; exec; try reflexivity).
  all: intros H; exfalso; apply H; reflexivity.
Qed.

Lemma begin_keeps_self (w : world) : self (final (begin w)) = self w.
Proof.
  split_world w.
  destruct acks as [|[] [|[] [|[] acks]]];
    destruct reads as [|[s1|] [|[s2|] reads]];
    exec; try reflexivity; repeat (branch; exec; try reflexivity).
Qed.

Lemma reset_keeps_self (w : world) : self (final (reset w)) = self w.
Proof.
  split_world w. destruct acks as [|[] acks]; reflexivity.
Qed.

Lemma frame_fields (crc_en : bool) (frame : nat -> byte) :
  let l_data := map frame (seq 0 (frame_len crc_en)) in
  humidity_field (byte_to_Z (frame 1%nat)) (byte_to_Z (frame 2%nat))
    (byte_to_Z (frame 3%nat)) = spec_raw_humidity l_data /\
  temperature_field (byte_to_Z (frame 3%nat)) (byte_to_Z (frame 4%nat))
    (byte_to_Z (frame 5%nat)) = spec_raw_temperature l_data.
Proof.
  cbv zeta. unfold spec_raw_humidity, spec_raw_temperature, frame_byte.
  rewrite humidity_field_bytes, temperature_field_bytes
    by apply byte_to_Z_range.
  destruct crc_en; split; reflexivity.
Qed.

(** C1. When [start_measurement_ready] returns [True], the frame it read
    holds the raw humidity in bytes 1-2 and the high nibble of byte 3 and the
    raw temperature in the low nibble of byte 3 and bytes 4-5, both below
    [2^20], and the stored values are [raw_h * 100.0 / 0x100000] and
    [raw_t * 200.0 / 0x100000 - 50]. *)
Theorem start_measurement_ready_decodes (crc_en : bool) (w : world) :
  let r := start_measurement_ready crc_en w in
  result r = Return true ->
  exists l_data : list byte,
    In (I2C_readfrom (_addr (self w)) (frame_len crc_en) (Some l_data))
      (trace r) /\
    List.length l_data = frame_len crc_en /\
    let raw_h := spec_raw_humidity l_data in
    let raw_t := spec_raw_temperature l_data in
    0 <= raw_h < 2 ^ 20 /\
    0 <= raw_t < 2 ^ 20 /\
    _humidity (self (final r)) =
      PrimFloat.div (PrimFloat.mul (float_of_int raw_h) 100%float)
        (float_of_int 0x100000) /\
    _temperature (self (final r)) =
      PrimFloat.sub
        (PrimFloat.div (PrimFloat.mul (float_of_int raw_t) 200%float)
           (float_of_int 0x100000))
        (float_of_int 50).
Proof.
  intros r Hok. subst r.
  destruct (measurement_success_inv crc_en w Hok)
    as (acks & status & frame & reads & _ & _ & _ & _ & _ & Hrun).
  rewrite Hrun. cbn [result trace final self].
  exists (map frame (seq 0 (frame_len crc_en))).
  destruct (frame_fields crc_en frame) as [Hh Ht]. cbv zeta.
  rewrite <- Hh, <- Ht.
  split; [simpl; tauto|].
  split; [rewrite length_map, length_seq; reflexivity|].
  split; [apply humidity_field_range|].
  split; [apply temperature_field_range|].
  split; reflexivity.
Qed.

Lemma start_measurement_ready_decodes_witness :
  let r := start_measurement_ready true (mk_world new_driver fixture_bus) in
  exists l_data : list byte,
    In (I2C_readfrom AHT20_DEF_I2C_ADDR 7 (Some l_data)) (trace r) /\
    List.length l_data = 7%nat /\
    let raw_h := spec_raw_humidity l_data in
    let raw_t := spec_raw_temperature l_data in
    0 <= raw_h < 2 ^ 20 /\
    0 <= raw_t < 2 ^ 20 /\
    _humidity (self (final r)) =
      PrimFloat.div (PrimFloat.mul (float_of_int raw_h) 100%float)
        (float_of_int 0x100000) /\
    _temperature (self (final r)) =
      PrimFloat.sub
        (PrimFloat.div (PrimFloat.mul (float_of_int raw_t) 200%float)
           (float_of_int 0x100000))
        (float_of_int 50).
Proof.
  apply (start_measurement_ready_decodes true
           (mk_world new_driver fixture_bus)).
  vm_compute. reflexivity.
Defined.

(** C2. Whenever [start_measurement_ready] returns [False] (device not
    calibrated, busy bit set in the frame, or CRC mismatch with the check
    enabled), the stored humidity and temperature are what they were before
    the call. *)
Theorem failed_measurement_keeps_reading (crc_en : bool) (w : world) :
  let r := start_measurement_ready crc_en w in
  result r = Return false ->
  _humidity (self (final r)) = _humidity (self w) /\
  _temperature (self (final r)) = _temperature (self w).
Proof.
  intros r Hfalse. subst r.
  rewrite measurement_failure_keeps_self by (rewrite Hfalse; discriminate).
  split; reflexivity.
Qed.

(** The three ways to [False]: not calibrated, busy, CRC mismatch. *)
Lemma failed_measurement_keeps_reading_witness :
  let not_calibrated :=
    mk_world measured_driver (mk_i2c [true] [Some (stream_of [x00])]) in
  let busy :=
    mk_world measured_driver
      (mk_i2c [true; true]
         [Some (stream_of [x18]);
          Some (stream_of [x80; x1b; x33; x5a; x9a; x3b])]) in
  let corrupted :=
    mk_world measured_driver
      (mk_i2c [true; true]
         [Some (stream_of [x18]);
          Some (stream_of [x00; x1b; x33; x5a; x9a; x3b; x00])]) in
  (result (start_measurement_ready false not_calibrated) = Return false /\
   _humidity (self (final (start_measurement_ready false not_calibrated)))
   = 42.5%float /\
   _temperature (self (final (start_measurement_ready false not_calibrated)))
   = 21.25%float) /\
  (result (start_measurement_ready false busy) = Return false /\
   _humidity (self (final (start_measurement_ready false busy)))
   = 42.5%float /\
   _temperature (self (final (start_measurement_ready false busy)))
   = 21.25%float) /\
  (result (start_measurement_ready true corrupted) = Return false /\
   _humidity (self (final (start_measurement_ready true corrupted)))
   = 42.5%float /\
   _temperature (self (final (start_measurement_ready true corrupted)))
   = 21.25%float).
Proof.
  cbv zeta. split; [|split].
  - split; [vm_compute; reflexivity|].
    apply (failed_measurement_keeps_reading false
             (mk_world measured_driver
                (mk_i2c [true] [Some (stream_of [x00])]))).
    vm_compute. reflexivity.
  - split; [vm_compute; reflexivity|].
    apply (failed_measurement_keeps_reading false
             (mk_world measured_driver
                (mk_i2c [true; true]
                   [Some (stream_of [x18]);
                    Some (stream_of [x80; x1b; x33; x5a; x9a; x3b])]))).
    vm_compute. reflexivity.
  - split; [vm_compute; reflexivity|].
    apply (failed_measurement_keeps_reading true
             (mk_world measured_driver
                (mk_i2c [true; true]
                   [Some (stream_of [x18]);
                    Some (stream_of
                            [x00; x1b; x33; x5a; x9a; x3b; x00])]))).
    vm_compute. reflexivity.
Defined.

(** C10. Whatever bytes the frame holds, once it has passed the busy check
    and the CRC check the stored humidity lies in [0, 100) and the stored
    temperature in [-50, 150): the fields are masked to 20 bits before they
    are scaled. *)
Theorem stored_reading_in_range (crc_en : bool) (w : world) :
  let r := start_measurement_ready crc_en w in
  result r = Return true ->
  let humidity := _humidity (self (final r)) in
  let temperature := _temperature (self (final r)) in
  PrimFloat.leb 0%float humidity = true /\
  PrimFloat.ltb humidity 100%float = true /\
  PrimFloat.leb (-50)%float temperature = true /\
  PrimFloat.ltb temperature 150%float = true.
Proof.
  intros r Hok. subst r.
  destruct (measurement_success_inv crc_en w Hok)
    as (acks & status & frame & reads & _ & _ & _ & _ & _ & Hrun).
  rewrite Hrun. cbn [result trace final self decoded _humidity _temperature].
  pose proof (humidity_of_raw_range _
                (humidity_field_range (byte_to_Z (frame 1%nat))
                   (byte_to_Z (frame 2%nat)) (byte_to_Z (frame 3%nat))))
    as Hh.
  pose proof (temperature_of_raw_range _
                (temperature_field_range (byte_to_Z (frame 3%nat))
                   (byte_to_Z (frame 4%nat)) (byte_to_Z (frame 5%nat))))
    as Ht.
  apply andb_true_iff in Hh as [Hh0 Hh1].
  apply andb_true_iff in Ht as [Ht0 Ht1].
  repeat split; assumption.
Qed.

Lemma stored_reading_in_range_witness :
  let r :=
    start_measurement_ready false
      (mk_world new_driver
         (mk_i2c [true; true]
            [Some (stream_of [x18]);
             Some (stream_of [x00; xff; xff; xff; xff; xff])])) in
  let humidity := _humidity (self (final r)) in
  let temperature := _temperature (self (final r)) in
  PrimFloat.leb 0%float humidity = true /\
  PrimFloat.ltb humidity 100%float = true /\
  PrimFloat.leb (-50)%float temperature = true /\
  PrimFloat.ltb temperature 150%float = true.
Proof.
  apply (stored_reading_in_range false
           (mk_world new_driver
              (mk_i2c [true; true]
                 [Some (stream_of [x18]);
                  Some (stream_of [x00; xff; xff; xff; xff; xff])]))).
  vm_compute. reflexivity.
Defined.

Lemma begin_already_ready (w : world) acks status reads :
  write_acks (bus w) = true :: acks ->
  read_data (bus w) = Some status :: reads ->
  truthy (Z.land (byte_to_Z (status 0%nat)) 0x08) = true ->
  begin w =
    mk_run (Return true)
      [I2C_writeto (_addr (self w)) CMD_STATUS true;
       I2C_readfrom (_addr (self w)) 1 (Some [status 0%nat])]
      (mk_world (self w) (mk_i2c acks reads)).
Proof.
  split_world w. simpl. intros -> -> Hready. exec. rewrite Hready. reflexivity.
Qed.

Lemma begin_initialises (w : world) acks answer1 answer2 reads :
  write_acks (bus w) = true :: true :: true :: acks ->
  read_data (bus w) = answer1 :: answer2 :: reads ->
  truthy (Z.land (status_of answer1) 0x08) = false ->
  begin w =
    mk_run (Return (truthy (Z.land (status_of answer2) 0x08)))
      ([I2C_writeto (_addr (self w)) CMD_STATUS true]
       ++ read_events (_addr (self w)) 1 answer1
       ++ [I2C_writeto (_addr (self w)) CMD_INIT true;
           Sleep CMD_INIT_TIME;
           I2C_writeto (_addr (self w)) CMD_STATUS true]
       ++ read_events (_addr (self w)) 1 answer2)
      (mk_world (self w) (mk_i2c acks reads)).
Proof.
  split_world w. simpl. intros -> ->.
  destruct answer1 as [s1|], answer2 as [s2|]; simpl; intros Hnot; exec;
    try rewrite Hnot; exec; try reflexivity;
    destruct (truthy (Z.land (byte_to_Z (s2 0%nat)) 8)); reflexivity.
Qed.

Lemma sent_read_events addr len answer : sent (read_events addr len answer) = [].
Proof. destruct answer; reflexivity. Qed.

Lemma sent_app t1 t2 : sent (t1 ++ t2) = sent t1 ++ sent t2.
Proof.
  induction t1 as [|e t1 IH]; simpl.
  - reflexivity.
  - destruct e; simpl; rewrite IH; reflexivity.
Qed.

(** The control flow of [begin], whatever the constant [CMD_INIT] holds:
    when the first status read shows the ready bit (0x08), it returns [True]
    and the only thing sent is the status command; otherwise (the bus writes
    being acknowledged) it hands [CMD_INIT] to [writeto], sleeps
    [CMD_INIT_TIME], asks for the status again and returns whether the ready
    bit is set then.  Calling it twice on a calibrated device hands over no
    [CMD_INIT] and changes nothing. *)
Theorem begin_checks_before_init (w : world) :
  (forall acks status reads,
     write_acks (bus w) = true :: acks ->
     read_data (bus w) = Some status :: reads ->
     truthy (Z.land (byte_to_Z (status 0%nat)) 0x08) = true ->
     result (begin w) = Return true /\
     sent (trace (begin w)) = [CMD_STATUS] /\
     ~ In CMD_INIT (sent (trace (begin w))) /\
     final (begin w) = mk_world (self w) (mk_i2c acks reads)) /\
  (forall acks answer1 answer2 reads,
     write_acks (bus w) = true :: true :: true :: acks ->
     read_data (bus w) = answer1 :: answer2 :: reads ->
     truthy (Z.land (status_of answer1) 0x08) = false ->
     result (begin w) = Return (truthy (Z.land (status_of answer2) 0x08)) /\
     trace (begin w) =
       [I2C_writeto (_addr (self w)) CMD_STATUS true]
       ++ read_events (_addr (self w)) 1 answer1
       ++ [I2C_writeto (_addr (self w)) CMD_INIT true;
           Sleep CMD_INIT_TIME;
           I2C_writeto (_addr (self w)) CMD_STATUS true]
       ++ read_events (_addr (self w)) 1 answer2 /\
     sent (trace (begin w)) = [CMD_STATUS; CMD_INIT; CMD_STATUS] /\
     final (begin w) = mk_world (self w) (mk_i2c acks reads)) /\
  (forall acks status1 status2 reads,
     write_acks (bus w) = true :: true :: acks ->
     read_data (bus w) = Some status1 :: Some status2 :: reads ->
     truthy (Z.land (byte_to_Z (status1 0%nat)) 0x08) = true ->
     truthy (Z.land (byte_to_Z (status2 0%nat)) 0x08) = true ->
     let first := begin w in
     let second := begin (final first) in
     result first = Return true /\
     result second = Return true /\
     sent (trace second) = [CMD_STATUS] /\
     self (final second) = self w).
Proof.
  split; [|split].
  - intros acks status reads Hacks Hreads Hready.
    rewrite (begin_already_ready w acks status reads Hacks Hreads Hready).
    cbn [result trace final]. repeat split.
    simpl. intros [H|[]]. discriminate H.
  - intros acks answer1 answer2 reads Hacks Hreads Hnot.
    rewrite (begin_initialises w acks answer1 answer2 reads Hacks Hreads Hnot).
    cbn [result trace final]. repeat split.
    rewrite !sent_app, !sent_read_events. reflexivity.
  - intros acks status1 status2 reads Hacks Hreads Hready1 Hready2.
    cbv zeta.
    rewrite (begin_already_ready w (true :: acks) status1
               (Some status2 :: reads) Hacks Hreads Hready1).
    cbn [result final].
    rewrite (begin_already_ready
               (mk_world (self w) (mk_i2c (true :: acks)
                                     (Some status2 :: reads)))
               acks status2 reads eq_refl eq_refl Hready2).
    cbn [result trace final self]. repeat split.
Qed.

Lemma begin_checks_before_init_witness :
  let calibrated :=
    mk_world new_driver
      (mk_i2c [true; true] [Some (stream_of [x18]); Some (stream_of [x18])]) in
  let cold :=
    mk_world new_driver
      (mk_i2c [true; true; true]
         [Some (stream_of [x10]); Some (stream_of [x18])]) in
  (result (begin calibrated) = Return true /\
   result (begin (final (begin calibrated))) = Return true /\
   sent (trace (begin (final (begin calibrated)))) = [CMD_STATUS] /\
   self (final (begin (final (begin calibrated)))) = new_driver) /\
  (result (begin cold)
   = Return (truthy (Z.land (status_of (Some (stream_of [x18]))) 0x08)) /\
   sent (trace (begin cold)) = [CMD_STATUS; CMD_INIT; CMD_STATUS]).
Proof.
  cbv zeta. split.
  - apply (proj2 (proj2 (begin_checks_before_init
                           (mk_world new_driver
                              (mk_i2c [true; true]
                                 [Some (stream_of [x18]);
                                  Some (stream_of [x18])]))))
             [] (stream_of [x18]) (stream_of [x18]) []);
      reflexivity.
  - destruct (proj1 (proj2 (begin_checks_before_init
                              (mk_world new_driver
                                 (mk_i2c [true; true; true]
                                    [Some (stream_of [x10]);
                                     Some (stream_of [x18])]))))
                [] (Some (stream_of [x10])) (Some (stream_of [x18])) []
                eq_refl eq_refl eq_refl) as (Hres & _ & Hsent & _).
    split; [exact Hres | exact Hsent].
Defined.

(** C7.  The code does not send the INIT command.  [begin] does return
    [True] at once, with nothing but the status command sent, when the first
    status read shows the ready bit; and otherwise it does write, sleep
    [CMD_INIT_TIME], ask for the status again and return the ready bit of
    the second answer.  But what it writes is [CMD_INIT], a [str] literal
    (line 26 lacks the [b] prefix that the other commands have): the wire
    carries the four bytes C2 BE 08 00, not the three bytes BE 08 00 of the
    INIT command, while the status command goes out as it should. *)
Theorem begin_sends_str_in_place_of_INIT (w : world) (acks : list bool)
    (answer1 answer2 : option (nat -> byte))
    (reads : list (option (nat -> byte))) :
  write_acks (bus w) = true :: true :: true :: acks ->
  read_data (bus w) = answer1 :: answer2 :: reads ->
  truthy (Z.land (status_of answer1) 0x08) = false ->
  result (begin w) = Return (truthy (Z.land (status_of answer2) 0x08)) /\
  sent (trace (begin w)) = [CMD_STATUS; Str [0xBE; 0x08; 0x00]; CMD_STATUS] /\
  map buffer_bytes (sent (trace (begin w)))
  = [[x71]; [xc2; xbe; x08; x00]; [x71]] /\
  ~ In INIT_COMMAND (map buffer_bytes (sent (trace (begin w)))).
Proof.
  intros Hacks Hreads Hnot.
  rewrite (begin_initialises w acks answer1 answer2 reads Hacks Hreads Hnot).
  cbn [result trace].
  assert (Hsent :
            sent ([I2C_writeto (_addr (self w)) CMD_STATUS true]
                  ++ read_events (_addr (self w)) 1 answer1
                  ++ [I2C_writeto (_addr (self w)) CMD_INIT true;
                      Sleep CMD_INIT_TIME;
                      I2C_writeto (_addr (self w)) CMD_STATUS true]
                  ++ read_events (_addr (self w)) 1 answer2)
            = [CMD_STATUS; Str [0xBE; 0x08; 0x00]; CMD_STATUS]).
  { rewrite !sent_app, !sent_read_events. reflexivity. }
  rewrite Hsent. split; [reflexivity|]. split; [reflexivity|].
  split; [reflexivity|].
  intros [H|[H|[H|[]]]]; discriminate H.
Qed.

Lemma begin_sends_str_in_place_of_INIT_witness :
  let w :=
    mk_world new_driver
      (mk_i2c [true; true; true]
         [Some (stream_of [x10]); Some (stream_of [x18])]) in
  result (begin w)
  = Return (truthy (Z.land (status_of (Some (stream_of [x18]))) 0x08)) /\
  sent (trace (begin w)) = [CMD_STATUS; Str [0xBE; 0x08; 0x00]; CMD_STATUS] /\
  map buffer_bytes (sent (trace (begin w)))
  = [[x71]; [xc2; xbe; x08; x00]; [x71]] /\
  ~ In INIT_COMMAND (map buffer_bytes (sent (trace (begin w)))).
Proof.
  apply (begin_sends_str_in_place_of_INIT
           (mk_world new_driver
              (mk_i2c [true; true; true]
                 [Some (stream_of [x10]); Some (stream_of [x18])]))
           [] (Some (stream_of [x10])) (Some (stream_of [x18])) []);
    reflexivity.
Defined.

(** C9. When the read of the status byte fails, [_get_status_data] returns
    0 and no exception leaves it: [_ready] answers [False],
    [start_measurement_ready] returns [False] with "Not calibrated", and
    [begin] goes on to send the INIT command (and returns [False] when the
    second status read fails as well). *)
Theorem failed_status_read_is_status_zero (w : world) (acks : list bool) :
  write_acks (bus w) = true :: acks ->
  next_read_fails (bus w) = true ->
  result (_get_status_data w) = Return 0 /\
  result (_ready w) = Return false /\
  (forall crc_en,
     result (start_measurement_ready crc_en w) = Return false /\
     In (Print "Not calibrated") (trace (start_measurement_ready crc_en w))) /\
  (exists rest, sent (trace (begin w)) = CMD_STATUS :: CMD_INIT :: rest) /\
  (forall acks',
     acks = true :: true :: acks' ->
     next_read_fails (bus (final (_get_status_data w))) = true ->
     result (begin w) = Return false).
Proof.
  split_world w. unfold next_read_fails. simpl. intros -> Hfail.
  destruct reads as [|[status|] reads]; [ | discriminate Hfail | ];
    (split; [|split; [|split; [|split]]]).
  - reflexivity.
  - reflexivity.
  - intros crc_en. split; [reflexivity | exec; tauto].
  - destruct acks as [|[] [|[] acks]]; exec; eexists; reflexivity.
  - intros acks' -> _. reflexivity.
  - reflexivity.
  - reflexivity.
  - intros crc_en. split; [reflexivity | exec; tauto].
  - destruct acks as [|[] [|[] acks]]; destruct reads as [|[status|] reads];
      exec; repeat (branch; exec); eexists; reflexivity.
  - intros acks' ->. exec.
    destruct reads as [|[status|] reads]; try discriminate; intros _;
      reflexivity.
Qed.

Lemma failed_status_read_is_status_zero_witness :
  let w := mk_world new_driver (mk_i2c [true; true; true] [None; None]) in
  result (_get_status_data w) = Return 0 /\
  result (_ready w) = Return false /\
  (forall crc_en,
     result (start_measurement_ready crc_en w) = Return false /\
     In (Print "Not calibrated") (trace (start_measurement_ready crc_en w))) /\
  (exists rest, sent (trace (begin w)) = CMD_STATUS :: CMD_INIT :: rest) /\
  (forall acks',
     [true; true] = true :: true :: acks' ->
     next_read_fails (bus (final (_get_status_data w))) = true ->
     result (begin w) = Return false).
Proof.
  apply (failed_status_read_is_status_zero
           (mk_world new_driver (mk_i2c [true; true; true] [None; None]))
           [true; true]); reflexivity.
Defined.

(** C8, counterexample.  The driver keeps no record of [begin]: on a device
    whose status shows the ready bit, [start_measurement_ready] succeeds on a
    fresh driver, and also right after a [begin] that returned [False]. *)
Lemma measurement_succeeds_without_begin :
  let w := mk_world new_driver fixture_bus in
  let cold :=
    mk_world new_driver
      (mk_i2c [true; true; true; true; true]
         [Some (stream_of [x00]); Some (stream_of [x00]);
          Some (stream_of [x18]);
          Some (stream_of [x00; x1b; x33; x5a; x9a; x3b])]) in
  (result (start_measurement_ready false w) = Return true /\
   PrimFloat.eqb
     (_humidity (self (final (start_measurement_ready false w)))) 0%float
   = false) /\
  (result (begin cold) = Return false /\
   result (start_measurement_ready false (final (begin cold))) = Return true /\
   PrimFloat.eqb
     (_humidity
        (self (final (start_measurement_ready false (final (begin cold))))))
     0%float
   = false).
Proof. vm_compute. repeat split. Qed.

(** C8, amended.  When the status byte that [start_measurement_ready] reads
    has the ready bit (0x08) clear, or that read fails, it returns [False] and
    leaves the driver object as it was; on a fresh driver the stored humidity
    and temperature stay at their defaults 0.0 and 0.0. *)
Theorem not_ready_measurement_fails (crc_en : bool) (w : world)
    (acks : list bool) :
  write_acks (bus w) = true :: acks ->
  truthy (Z.land (next_status (bus w)) 0x08) = false ->
  let r := start_measurement_ready crc_en w in
  result r = Return false /\
  self (final r) = self w /\
  (self w = new_driver ->
   _humidity (self (final r)) = 0%float /\
   _temperature (self (final r)) = 0%float).
Proof.
  intros Hacks Hnot r.
  assert (Hres : result r = Return false).
  { subst r. revert Hacks Hnot. split_world w. unfold next_status. simpl.
    intros ->. destruct reads as [|[status|] reads]; simpl; intros Hnot;
      exec; try rewrite Hnot; reflexivity. }
  assert (Hself : self (final r) = self w).
  { apply measurement_failure_keeps_self. fold r. rewrite Hres.
    discriminate. }
  split; [exact Hres|]. split; [exact Hself|].
  intros Hnew. rewrite Hself, Hnew. split; reflexivity.
Qed.

Lemma not_ready_measurement_fails_witness :
  let r :=
    start_measurement_ready false
      (mk_world new_driver (mk_i2c [true] [Some (stream_of [x10])])) in
  result r = Return false /\
  self (final r) = new_driver /\
  (new_driver = new_driver ->
   _humidity (self (final r)) = 0%float /\
   _temperature (self (final r)) = 0%float).
Proof.
  apply (not_ready_measurement_fails false
           (mk_world new_driver (mk_i2c [true] [Some (stream_of [x10])]))
           []); reflexivity.
Defined.

(** C3, counterexample.  A bus write that is not acknowledged raises
    [OSError] out of [begin], [reset] and [start_measurement_ready]. *)
Lemma failed_write_raises :
  let w := mk_world new_driver (mk_i2c [false] []) in
  bus_failed (trace (begin w)) = true /\
  result (begin w) = Raise OSError /\
  result (reset w) = Raise OSError /\
  result (start_measurement_ready false w) = Raise OSError.
Proof. vm_compute. repeat split. Qed.

(** C3, amended.  Whenever a bus transaction fails during [begin], [reset]
    or [start_measurement_ready], the driver object, and so the stored
    humidity and temperature, is left as it was.  A failed write reaches the
    caller as [OSError]; a failed status read does not: without a failed
    write [begin] still returns a boolean, and [start_measurement_ready]
    returns [False]. *)
Theorem bus_failure_keeps_reading (crc_en : bool) (w : world) :
  (bus_failed (trace (begin w)) = true ->
   self (final (begin w)) = self w /\
   (write_failed (trace (begin w)) = true ->
    result (begin w) = Raise OSError) /\
   (write_failed (trace (begin w)) = false ->
    exists ok, result (begin w) = Return ok)) /\
  (bus_failed (trace (reset w)) = true ->
   self (final (reset w)) = self w /\
   result (reset w) = Raise OSError) /\
  (let r := start_measurement_ready crc_en w in
   bus_failed (trace r) = true ->
   self (final r) = self w /\
   (write_failed (trace r) = true -> result r = Raise OSError) /\
   (write_failed (trace r) = false ->
    In (I2C_readfrom (_addr (self w)) 1 None) (trace r) ->
    result r = Return false)).
Proof.
  split; [|split].
  - intros _. split; [apply begin_keeps_self|].
    split_world w. unfold write_failed.
    destruct acks as [|[] [|[] [|[] acks]]];
      destruct reads as [|[s1|] [|[s2|] reads]];
      exec; try (finish; fail); repeat (branch; exec; try (finish; fail)).
  - intros H. split; [apply reset_keeps_self|].
    revert H. split_world w. unfold bus_failed, write_failed, read_failed.
    destruct acks as [|[] acks]; exec; finish.
  - cbv zeta. 
    split_world w. unfold bus_failed, write_failed, read_failed.
    destruct acks as [|[] [|[] acks]];
      destruct reads as [|[status|] [|[frame|] reads]]; destruct crc_en;
      exec; try (finish; fail); repeat (branch; exec; try (finish; fail)).
Qed.

Lemma bus_failure_keeps_reading_witness :
  let silent :=
    mk_world measured_driver (mk_i2c [true; true; true] [None; None]) in
  let unplugged :=
    mk_world measured_driver (mk_i2c [true; false] [Some (stream_of [x18])]) in
  (self (final (begin silent)) = measured_driver /\
   exists ok, result (begin silent) = Return ok) /\
  (self (final (reset (mk_world measured_driver (mk_i2c [false] []))))
   = measured_driver) /\
  (self (final (start_measurement_ready false unplugged)) = measured_driver /\
   result (start_measurement_ready false unplugged) = Raise OSError).
Proof.
  cbv zeta. split; [|split].
  - destruct (proj1 (bus_failure_keeps_reading false
                       (mk_world measured_driver
                          (mk_i2c [true; true; true] [None; None])))
                eq_refl) as (Hself & _ & Hret).
    split; [exact Hself | apply Hret; reflexivity].
  - apply (proj1 (proj2 (bus_failure_keeps_reading false
                           (mk_world measured_driver (mk_i2c [false] []))))
             eq_refl).
  - destruct (proj2 (proj2 (bus_failure_keeps_reading false
                              (mk_world measured_driver
                                 (mk_i2c [true; false]
                                    [Some (stream_of [x18])]))))
                eq_refl) as (Hself & Hraise & _).
    split; [exact Hself | apply Hraise; reflexivity].
Defined.

(** When the read of the frame itself fails, [_read_data] hands back the
    empty list and the subscript [l_data[0]] raises [IndexError]; the stored
    reading is still the earlier one. *)
Example failed_frame_read_raises_IndexError :
  let w :=
    mk_world measured_driver
      (mk_i2c [true; true] [Some (stream_of [x18]); None]) in
  result (start_measurement_ready false w) = Raise IndexError /\
  self (final (start_measurement_ready false w)) = measured_driver.
Proof. vm_compute. split; reflexivity. Qed.

(** ** Outcomes and bus traffic of [start_measurement_ready] *)

(** X1. [start_measurement_ready] returns [True] exactly when both bus
    writes are acknowledged, the status read answers with the ready bit
    (0x08) set, the frame read answers with the busy bit (0x80) clear and,
    with the check enabled, byte 6 of the frame is the CRC-8 of bytes 0-5. *)
Theorem measurement_succeeds_iff (crc_en : bool) (w : world) :
  result (start_measurement_ready crc_en w) = Return true <->
  exists acks status frame reads,
    write_acks (bus w) = true :: true :: acks /\
    read_data (bus w) = Some status :: Some frame :: reads /\
    truthy (Z.land (byte_to_Z (status 0%nat)) 0x08) = true /\
    truthy (Z.land (byte_to_Z (frame 0%nat)) 0x80) = false /\
    (crc_en = true ->
     _check_crc8 (byte_to_Z (frame 6%nat)) (map frame (seq 0 6)) = true).
Proof.
  split.
  - intros Hok.
    destruct (measurement_success_inv crc_en w Hok)
      as (acks & status & frame & reads & Ha & Hr & Hs & Hb & Hc & _).
    exists acks, status, frame, reads. repeat split; assumption.
  - intros (acks & status & frame & reads & Ha & Hr & Hs & Hb & Hc).
    revert Ha Hr Hc. split_world w. simpl. intros -> -> Hc.
    destruct crc_en; exec; rewrite Hs; exec; rewrite Hb; exec.
    + simpl in Hc. rewrite (Hc eq_refl). reflexivity.
    + reflexivity.
Qed.

Lemma measurement_succeeds_iff_witness :
  result (start_measurement_ready true (mk_world new_driver fixture_bus))
  = Return true.
Proof.
  apply (proj2 (measurement_succeeds_iff true
                  (mk_world new_driver fixture_bus))).
  exists [], (stream_of [x18]),
    (stream_of [x00; x1b; x33; x5a; x9a; x3b; xbc]), [].
  repeat split.
Defined.

(** X2. [start_measurement_ready] raises [IndexError] exactly when the
    device reports ready, the measurement command is acknowledged and the
    read of the frame then fails: [_read_data] returns the empty list and
    [l_data[0]] is out of range. *)
Theorem measurement_raises_IndexError_iff (crc_en : bool) (w : world) :
  result (start_measurement_ready crc_en w) = Raise IndexError <->
  exists acks status reads,
    write_acks (bus w) = true :: true :: acks /\
    read_data (bus w) = Some status :: reads /\
    truthy (Z.land (byte_to_Z (status 0%nat)) 0x08) = true /\
    next_read_fails (mk_i2c acks reads) = true.
Proof.
  split.
  - split_world w.
    destruct acks as [|[] [|[] acks]];
      destruct reads as [|[status|] [|[frame|] reads]]; destruct crc_en;
      exec; try discriminate; repeat (branch; exec; try discriminate).
    all: intros _; eexists _, _, _; repeat split; eassumption || reflexivity.
  - intros (acks & status & reads & Ha & Hr & Hs & Hf).
    revert Ha Hr Hf. split_world w. unfold next_read_fails. simpl.
    intros -> ->.
    destruct reads as [|[frame|] reads]; try discriminate; intros _;
      destruct crc_en; exec; rewrite Hs; reflexivity.
Qed.

Lemma measurement_raises_IndexError_iff_witness :
  result
    (start_measurement_ready false
       (mk_world measured_driver
          (mk_i2c [true; true] [Some (stream_of [x18]); None])))
  = Raise IndexError.
Proof.
  apply (proj2 (measurement_raises_IndexError_iff false
                  (mk_world measured_driver
                     (mk_i2c [true; true] [Some (stream_of [x18]); None])))).
  exists [], (stream_of [x18]), [None]. repeat split.
Defined.

(** X3. [start_measurement_ready] raises [OSError] exactly when one of its
    bus writes is not acknowledged; a failed read never comes out as
    [OSError]. *)
Theorem measurement_raises_OSError_iff (crc_en : bool) (w : world) :
  result (start_measurement_ready crc_en w) = Raise OSError <->
  write_failed (trace (start_measurement_ready crc_en w)) = true.
Proof.
  split_world w. unfold write_failed.
  destruct acks as [|[] [|[] acks]];
    destruct reads as [|[status|] [|[frame|] reads]]; destruct crc_en;
    exec; try (split; (reflexivity || discriminate));
    repeat (branch; exec; try (split; (reflexivity || discriminate))).
Qed.

Lemma measurement_raises_OSError_iff_witness :
  result
    (start_measurement_ready false
       (mk_world measured_driver
          (mk_i2c [true; false] [Some (stream_of [x18])])))
  = Raise OSError.
Proof.
  apply (proj2 (measurement_raises_OSError_iff false
                  (mk_world measured_driver
                     (mk_i2c [true; false] [Some (stream_of [x18])])))).
  reflexivity.
Defined.

Lemma cons_eq_app_cons {A} (x e : A) (l t1 t2 : list A) :
  e :: l = t1 ++ x :: t2 ->
  (t1 = [] /\ e = x /\ l = t2) \/
  (exists t1', t1 = e :: t1' /\ l = t1' ++ x :: t2).
Proof.
  destruct t1 as [|e' t1]; simpl; intros H; injection H as -> ->.
  - left. repeat split.
  - right. exists t1. split; reflexivity.
Qed.

Lemma nil_eq_app_cons {A} (x : A) (t1 t2 : list A) :
  [] = t1 ++ x :: t2 -> False.
Proof. destruct t1; discriminate. Qed.

(** Finds every place of an event in a trace that is known. *)
Ltac places H :=
  repeat match type of H with
  | [] = _ ++ _ :: _ => destruct (nil_eq_app_cons _ _ _ H)
  | _ :: _ = _ ++ _ :: _ =>
      apply cons_eq_app_cons in H;
      let Ht := fresh "Ht" in
      destruct H as [(Ht & H & ?) | (? & Ht & H)];
      [try discriminate H; try rewrite Ht in * | rewrite Ht in *; clear Ht]
  end.

(** X4. Whenever the measurement command has been sent and acknowledged,
    the next two things that happen are the sleep of [CMD_MEASUREMENT_TIME]
    and the read of the frame (6 bytes, 7 with the CRC) from the same
    address; only the status command was sent before, and no bus traffic
    follows. *)
Theorem measurement_trigger_then_read (crc_en : bool) (w : world)
    (t1 t2 : list event) (addr : Z) :
  trace (start_measurement_ready crc_en w)
  = t1 ++ I2C_writeto addr CMD_MEASUREMENT true :: t2 ->
  exists answer prints,
    t2 = Sleep CMD_MEASUREMENT_TIME
         :: I2C_readfrom addr (frame_len crc_en) answer :: prints /\
    existsb is_bus_event prints = false /\
    sent t1 = [CMD_STATUS].
Proof.
  split_world w. unfold CMD_MEASUREMENT.
  destruct acks as [|[] [|[] acks]];
    destruct reads as [|[status|] [|[frame|] reads]]; destruct crc_en;
    exec; repeat (branch; exec); intros H; places H.
  all: match goal with
       | H : I2C_writeto _ _ _ = I2C_writeto _ _ _ |- _ =>
           injection H as <-
       end; subst; eexists _, _; repeat split.
Qed.

Lemma measurement_trigger_then_read_witness :
  exists answer prints,
    [Sleep CMD_MEASUREMENT_TIME;
     I2C_readfrom AHT20_DEF_I2C_ADDR 7
       (Some [x00; x1b; x33; x5a; x9a; x3b; xbc])]
    = Sleep CMD_MEASUREMENT_TIME
      :: I2C_readfrom AHT20_DEF_I2C_ADDR (frame_len true) answer :: prints /\
    existsb is_bus_event prints = false /\
    sent [I2C_writeto AHT20_DEF_I2C_ADDR CMD_STATUS true;
          I2C_readfrom AHT20_DEF_I2C_ADDR 1 (Some [x18])] = [CMD_STATUS].
Proof.
  apply (measurement_trigger_then_read true
           (mk_world new_driver fixture_bus)
           [I2C_writeto AHT20_DEF_I2C_ADDR CMD_STATUS true;
            I2C_readfrom AHT20_DEF_I2C_ADDR 1 (Some [x18])]
           [Sleep CMD_MEASUREMENT_TIME;
            I2C_readfrom AHT20_DEF_I2C_ADDR 7
              (Some [x00; x1b; x33; x5a; x9a; x3b; xbc])]
           AHT20_DEF_I2C_ADDR).
  vm_compute. reflexivity.
Defined.

(** X5. [start_measurement_ready] sends the status command and at most the
    measurement command after it, never INIT or the soft reset; the
    measurement command is sent only after a status byte with the ready bit
    has been read. *)
Theorem measurement_sends_status_then_trigger (crc_en : bool) (w : world) :
  let t := trace (start_measurement_ready crc_en w) in
  (sent t = [CMD_STATUS] \/ sent t = [CMD_STATUS; CMD_MEASUREMENT]) /\
  (sent t = [CMD_STATUS; CMD_MEASUREMENT] ->
   exists status,
     In (I2C_readfrom (_addr (self w)) 1 (Some [status])) t /\
     truthy (Z.land (byte_to_Z status) 0x08) = true).
Proof.
  cbv zeta. split_world w.
  destruct acks as [|[] [|[] acks]];
    destruct reads as [|[status|] [|[frame|] reads]]; destruct crc_en;
    exec; repeat (branch; exec);
    (split; [auto | try discriminate]).
  all: intros _; eexists; split; [simpl; right; left; reflexivity | assumption].
Qed.

Lemma measurement_sends_status_then_trigger_witness :
  exists status,
    In (I2C_readfrom AHT20_DEF_I2C_ADDR 1 (Some [status]))
      (trace (start_measurement_ready true
                (mk_world new_driver fixture_bus))) /\
    truthy (Z.land (byte_to_Z status) 0x08) = true.
Proof.
  apply (proj2 (measurement_sends_status_then_trigger true
                  (mk_world new_driver fixture_bus))).
  vm_compute. reflexivity.
Defined.

(** X6. The CRC check only ever rejects: a run that succeeds with
    [crc_en = True] also succeeds with [crc_en = False] against the same
    bus answers, and ends in the same state (same stored reading). *)
Theorem crc_check_only_rejects (w : world) :
  result (start_measurement_ready true w) = Return true ->
  result (start_measurement_ready false w) = Return true /\
  final (start_measurement_ready false w)
  = final (start_measurement_ready true w).
Proof.
  intros Hok.
  destruct (measurement_success_inv true w Hok)
    as (acks & status & frame & reads & Ha & Hr & Hs & Hb & _ & Hrun).
  rewrite Hrun. cbn [final].
  revert Ha Hr. split_world w. simpl. intros -> ->.
  exec. rewrite Hs. exec. rewrite Hb. split; reflexivity.
Qed.

Lemma crc_check_only_rejects_witness :
  result (start_measurement_ready false (mk_world new_driver fixture_bus))
  = Return true /\
  final (start_measurement_ready false (mk_world new_driver fixture_bus))
  = final (start_measurement_ready true (mk_world new_driver fixture_bus)).
Proof.
  apply (crc_check_only_rejects (mk_world new_driver fixture_bus)).
  vm_compute. reflexivity.
Defined.

(** X7. Every bus write and bus read of [begin], [reset] and
    [start_measurement_ready] goes to the address held in [_addr]. *)
Theorem bus_traffic_goes_to_addr (w : world) (op : operation) :
  Forall (addressed_to (_addr (self w))) (trace_of_operation w op).
Proof.
  split_world w. destruct op as [| |crc_en]; unfold trace_of_operation.
  - destruct acks as [|[] [|[] [|[] acks]]];
      destruct reads as [|[s1|] [|[s2|] reads]];
      exec; repeat (branch; exec); repeat constructor.
  - destruct acks as [|[] acks]; exec; repeat constructor.
  - destruct acks as [|[] [|[] acks]];
      destruct reads as [|[status|] [|[frame|] reads]]; destruct crc_en;
      exec; repeat (branch; exec); repeat constructor.
Qed.

Lemma run_operation_keeps (w : world) (op : operation) :
  _addr (self (run_operation w op)) = _addr (self w) /\
  (reading_valid (self w) = true ->
   reading_valid (self (run_operation w op)) = true).
Proof.
  destruct op as [| |crc_en]; unfold run_operation.
  - rewrite begin_keeps_self. split; trivial.
  - rewrite reset_keeps_self. split; trivial.
  - destruct (result (start_measurement_ready crc_en w)) as [[|]|e] eqn:Hres.
    + destruct (measurement_success_inv crc_en w Hres)
        as (acks & status & frame & reads & _ & _ & _ & _ & _ & Hrun).
      rewrite Hrun. cbn [final self decoded _addr]. split; [reflexivity|].
      intros _. unfold reading_valid, decoded.
      cbn [_humidity _temperature].
      rewrite humidity_of_raw_range by apply humidity_field_range.
      rewrite temperature_of_raw_range by apply temperature_field_range.
      reflexivity.
    + rewrite measurement_failure_keeps_self
        by (rewrite Hres; discriminate). split; trivial.
    + rewrite measurement_failure_keeps_self
        by (rewrite Hres; discriminate). split; trivial.
Qed.

(** X8. Whatever sequence of [begin], [reset] and
    [start_measurement_ready] is called and whatever the bus answers (the
    caller going on after an exception): if the stored humidity is in
    [0, 100) and the stored temperature in [-50, 150) before, they are so
    afterwards, and [_addr] does not change. *)
Theorem reading_stays_valid (ops : list operation) (w : world) :
  reading_valid (self w) = true ->
  reading_valid (self (run_operations ops w)) = true /\
  _addr (self (run_operations ops w)) = _addr (self w).
Proof.
  unfold run_operations. revert w.
  induction ops as [|op ops IH]; intros w Hvalid; simpl.
  - split; [exact Hvalid | reflexivity].
  - destruct (run_operation_keeps w op) as [Haddr Hkeep].
    destruct (IH (run_operation w op) (Hkeep Hvalid)) as [Hv Ha].
    split; [exact Hv | congruence].
Qed.

Lemma reading_stays_valid_witness :
  reading_valid
    (self (run_operations [Begin; Measure true; Reset; Measure false]
             (mk_world new_driver fixture_bus))) = true /\
  _addr
    (self (run_operations [Begin; Measure true; Reset; Measure false]
             (mk_world new_driver fixture_bus))) = AHT20_DEF_I2C_ADDR.
Proof.
  apply (reading_stays_valid [Begin; Measure true; Reset; Measure false]
           (mk_world new_driver fixture_bus)).
  vm_compute. reflexivity.
Defined.

(** X9. [reset]: when the write is acknowledged exactly the soft-reset
    byte 0xBA is sent, followed by a sleep of [CMD_SOFT_RESET_TIME]; when it
    is not, [OSError] is raised at once, without the sleep.  Either way
    nothing is read from the bus and the driver object keeps its stored
    reading. *)
Theorem reset_sends_soft_reset (w : world) :
  (forall acks,
     write_acks (bus w) = true :: acks ->
     reset w =
       mk_run (Return tt)
         [I2C_writeto (_addr (self w)) CMD_SOFT_RESET true;
          Sleep CMD_SOFT_RESET_TIME]
         (mk_world (self w) (mk_i2c acks (read_data (bus w))))) /\
  (hd false (write_acks (bus w)) = false ->
   result (reset w) = Raise OSError /\
   trace (reset w) = [I2C_writeto (_addr (self w)) CMD_SOFT_RESET false] /\
   self (final (reset w)) = self w /\
   read_data (bus (final (reset w))) = read_data (bus w)).
Proof.
  split_world w. simpl. split.
  - intros acks' ->. reflexivity.
  - destruct acks as [|[] acks]; simpl; try discriminate; intros _;
      repeat split.
Qed.

Lemma reset_sends_soft_reset_witness :
  reset (mk_world measured_driver (mk_i2c [true] [None]))
  = mk_run (Return tt)
      [I2C_writeto AHT20_DEF_I2C_ADDR CMD_SOFT_RESET true;
       Sleep CMD_SOFT_RESET_TIME]
      (mk_world measured_driver (mk_i2c [] [None])).
Proof.
  apply (proj1 (reset_sends_soft_reset
                  (mk_world measured_driver (mk_i2c [true] [None]))) []).
  reflexivity.
Defined.

(** ** Detection of corrupted frames *)

Lemma crc8_shift_check_all : all_range 8 0 crc8_shift_check = true.
Proof. vm_compute. reflexivity. Qed.

Lemma crc8_ref_shift_range (x : Z) :
  0 <= x < 256 -> 0 <= crc8_ref_shift x < 256.
Proof.
  intros Hx.
  pose proof (all_range_spec 8 crc8_shift_check 0 crc8_shift_check_all x Hx)
    as H.
  unfold crc8_shift_check in H.
  apply andb_true_iff in H as [H H2]. apply andb_true_iff in H as [_ H1].
  lia.
Qed.

Lemma crc8_ref_shift_inj (x y : Z) :
  0 <= x < 256 -> 0 <= y < 256 ->
  crc8_ref_shift x = crc8_ref_shift y -> x = y.
Proof.
  intros Hx Hy Heq.
  pose proof (all_range_spec 8 crc8_shift_check 0 crc8_shift_check_all x Hx)
    as H1.
  pose proof (all_range_spec 8 crc8_shift_check 0 crc8_shift_check_all y Hy)
    as H2.
  unfold crc8_shift_check in H1, H2.
  apply andb_true_iff in H1 as [H1 _]. apply andb_true_iff in H1 as [H1 _].
  apply andb_true_iff in H2 as [H2 _]. apply andb_true_iff in H2 as [H2 _].
  apply Z.eqb_eq in H1, H2. rewrite <- H1, <- H2, Heq. reflexivity.
Qed.

Lemma crc8_ref_iter_range (n : nat) (x : Z) :
  0 <= x < 256 -> 0 <= Nat.iter n crc8_ref_shift x < 256.
Proof.
  intros Hx. induction n as [|n IH]; simpl.
  - exact Hx.
  - apply crc8_ref_shift_range. exact IH.
Qed.

Lemma crc8_ref_iter_inj (n : nat) (x y : Z) :
  0 <= x < 256 -> 0 <= y < 256 ->
  Nat.iter n crc8_ref_shift x = Nat.iter n crc8_ref_shift y -> x = y.
Proof.
  intros Hx Hy. induction n as [|n IH]; simpl; intros Heq.
  - exact Heq.
  - apply IH. apply crc8_ref_shift_inj; try apply crc8_ref_iter_range;
      assumption.
Qed.

Lemma lxor_byte_range (a b : Z) :
  0 <= a < 256 -> 0 <= b < 256 -> 0 <= Z.lxor a b < 256.
Proof.
  intros Ha Hb.
  rewrite <- (land_255_small a Ha), <- (land_255_small b Hb).
  rewrite <- land_lxor_distr, land_255_mod.
  apply Z.mod_pos_bound. lia.
Qed.

Lemma lxor_cancel_l (a b c : Z) : Z.lxor a b = Z.lxor a c -> b = c.
Proof.
  intros H.
  rewrite <- (Z.lxor_0_l b), <- (Z.lxor_0_l c), <- (Z.lxor_nilpotent a).
  rewrite !Z.lxor_assoc, H. reflexivity.
Qed.

Lemma lxor_cancel_r (a b c : Z) : Z.lxor b a = Z.lxor c a -> b = c.
Proof. rewrite !(Z.lxor_comm _ a). apply lxor_cancel_l. Qed.

Lemma byte_to_Z_inj (d d' : byte) : byte_to_Z d = byte_to_Z d' -> d = d'.
Proof.
  unfold byte_to_Z. intros H. apply N2Z.inj in H.
  pose proof (Byte.of_to_N d) as Hd. rewrite H, Byte.of_to_N in Hd.
  congruence.
Qed.

Lemma crc8_ref_byte_range (crc : Z) (d : byte) :
  0 <= crc < 256 -> 0 <= crc8_ref_byte crc d < 256.
Proof.
  intros Hc. apply crc8_ref_iter_range, lxor_byte_range;
    [exact Hc | apply byte_to_Z_range].
Qed.

Lemma crc8_ref_fold_range (data : list byte) (crc : Z) :
  0 <= crc < 256 -> 0 <= fold_left crc8_ref_byte data crc < 256.
Proof.
  revert crc. induction data as [|d data IH]; intros crc Hc; simpl.
  - exact Hc.
  - apply IH, crc8_ref_byte_range, Hc.
Qed.

Lemma crc8_ref_fold_inj (data : list byte) (crc crc' : Z) :
  0 <= crc < 256 -> 0 <= crc' < 256 ->
  fold_left crc8_ref_byte data crc = fold_left crc8_ref_byte data crc' ->
  crc = crc'.
Proof.
  revert crc crc'. induction data as [|d data IH]; intros crc crc' Hc Hc';
    simpl; intros Heq.
  - exact Heq.
  - apply IH in Heq; try (apply crc8_ref_byte_range; assumption).
    apply crc8_ref_iter_inj in Heq;
      try (apply lxor_byte_range; [assumption | apply byte_to_Z_range]).
    apply lxor_cancel_r in Heq. exact Heq.
Qed.

Lemma crc8_reference_corrupted (before after : list byte) (d d' : byte) :
  d <> d' ->
  crc8_reference (before ++ d :: after)
  <> crc8_reference (before ++ d' :: after).
Proof.
  intros Hne Heq. unfold crc8_reference in Heq.
  rewrite !fold_left_app in Heq. simpl in Heq.
  pose proof (crc8_ref_fold_range before 0xFF ltac:(lia)) as Hr.
  apply crc8_ref_fold_inj in Heq;
    try (apply crc8_ref_byte_range; exact Hr).
  apply crc8_ref_iter_inj in Heq;
    try (apply lxor_byte_range; [exact Hr | apply byte_to_Z_range]).
  apply lxor_cancel_l in Heq. apply Hne, byte_to_Z_inj, Heq.
Qed.

(** X10. If [_check_crc8] accepts a check value for some data, then it
    rejects the same check value for data that differ in exactly one byte
    (so every single-bit error and every error burst inside one byte is
    detected), and it rejects every other check value for the data
    itself.  This holds for data of any length. *)
Theorem check_crc8_detects_corrupted_byte
    (before after : list byte) (d d' : byte) (crc8 : Z) :
  d <> d' ->
  _check_crc8 crc8 (before ++ d :: after) = true ->
  _check_crc8 crc8 (before ++ d' :: after) = false /\
  (forall crc8', crc8' <> crc8 ->
     _check_crc8 crc8' (before ++ d :: after) = false).
Proof.
  intros Hne Hok. apply check_crc8_spec in Hok.
  rewrite crc8_loop_low in Hok. split.
  - destruct (_check_crc8 crc8 (before ++ d' :: after)) eqn:E;
      [|reflexivity].
    apply check_crc8_spec in E. rewrite crc8_loop_low in E.
    exfalso. apply (crc8_reference_corrupted before after d d' Hne).
    congruence.
  - intros crc8' Hc.
    destruct (_check_crc8 crc8' (before ++ d :: after)) eqn:E;
      [|reflexivity].
    apply check_crc8_spec in E. rewrite crc8_loop_low in E. congruence.
Qed.

Lemma check_crc8_detects_corrupted_byte_witness :
  _check_crc8 188 ([x00; x1b; x33] ++ x5b :: [x9a; x3b]) = false /\
  (forall crc8', crc8' <> 188 ->
     _check_crc8 crc8' ([x00; x1b; x33] ++ x5a :: [x9a; x3b]) = false).
Proof.
  apply (check_crc8_detects_corrupted_byte [x00; x1b; x33] [x9a; x3b]
           x5a x5b 188).
  - discriminate.
  - reflexivity.
Defined.

(** ** Temperature, Fahrenheit, and packed frames *)

Lemma temperature_check_all : all_range 20 0 temperature_check = true.
Proof. vm_compute. reflexivity. Qed.

Lemma temperature_check_holds (r : Z) :
  0 <= r < 0x100000 -> temperature_check r = true.
Proof.
  intros Hr.
  apply (all_range_spec 20 temperature_check 0 temperature_check_all).
  exact Hr.
Qed.

Lemma temperature_steps (r : Z) :
  0 <= r -> r + 1 < 0x100000 ->
  PrimFloat.ltb (temperature_of_raw r) (temperature_of_raw (r + 1)) = true /\
  PrimFloat.ltb (fahrenheit_of_celsius (temperature_of_raw r))
    (fahrenheit_of_celsius (temperature_of_raw (r + 1))) = true.
Proof.
  intros H0 H1. pose proof (temperature_check_holds r ltac:(lia)) as H.
  unfold temperature_check in H. cbv zeta in H.
  apply andb_true_iff in H as [_ H]. apply orb_true_iff in H as [H|H].
  - apply Z.eqb_eq in H. lia.
  - apply andb_true_iff in H. exact H.
Qed.

Lemma temperature_increasing (n : nat) (r : Z) :
  0 <= r -> r + 1 + Z.of_nat n < 0x100000 ->
  PrimFloat.ltb (temperature_of_raw r)
    (temperature_of_raw (r + 1 + Z.of_nat n)) = true /\
  PrimFloat.ltb (fahrenheit_of_celsius (temperature_of_raw r))
    (fahrenheit_of_celsius (temperature_of_raw (r + 1 + Z.of_nat n)))
  = true.
Proof.
  intros H0. induction n as [|n IH]; intros Hhi.
  - rewrite Z.add_0_r. apply temperature_steps; lia.
  - destruct (IH ltac:(lia)) as [IHc IHf].
    replace (r + 1 + Z.of_nat (S n)) with (r + 1 + Z.of_nat n + 1) by lia.
    destruct (temperature_steps (r + 1 + Z.of_nat n) ltac:(lia) ltac:(lia))
      as [Hc Hf].
    split; eapply float_ltb_trans; eassumption.
Qed.

(** X11. On the 20-bit raw values the decoded temperature
    [r * 200.0 / 0x100000 - 50] grows strictly with [r], and so does its
    conversion to Fahrenheit [celsius * 1.8 + 32] (order of floats). *)
Theorem temperature_strictly_increasing (r r' : Z) :
  0 <= r -> r < r' -> r' < 0x100000 ->
  PrimFloat.ltb (temperature_of_raw r) (temperature_of_raw r') = true /\
  PrimFloat.ltb (fahrenheit_of_celsius (temperature_of_raw r))
    (fahrenheit_of_celsius (temperature_of_raw r')) = true.
Proof.
  intros H0 Hlt Hhi.
  replace r' with (r + 1 + Z.of_nat (Z.to_nat (r' - r - 1))) by lia.
  apply temperature_increasing; lia.
Qed.

Lemma temperature_strictly_increasing_witness :
  PrimFloat.ltb (temperature_of_raw 0x1B335) (temperature_of_raw 0xA9A3B)
  = true /\
  PrimFloat.ltb (fahrenheit_of_celsius (temperature_of_raw 0x1B335))
    (fahrenheit_of_celsius (temperature_of_raw 0xA9A3B)) = true.
Proof.
  apply (temperature_strictly_increasing 0x1B335 0xA9A3B); lia.
Defined.

(** X12. After a successful measurement [get_temperature_C] and
    [get_temperature_F] do no bus traffic and leave the state alone, the
    Fahrenheit value is [celsius * 1.8 + 32], and it lies in [-58, 302). *)
Theorem fahrenheit_after_measurement (crc_en : bool) (w : world) :
  result (start_measurement_ready crc_en w) = Return true ->
  let w' := final (start_measurement_ready crc_en w) in
  exists celsius fahrenheit,
    get_temperature_C w' = mk_run (Return celsius) [] w' /\
    get_temperature_F w' = mk_run (Return fahrenheit) [] w' /\
    fahrenheit
    = PrimFloat.add (PrimFloat.mul celsius 1.8%float) (float_of_int 32) /\
    PrimFloat.leb (-58)%float fahrenheit = true /\
    PrimFloat.ltb fahrenheit 302%float = true.
Proof.
  intros Hok.
  destruct (measurement_success_inv crc_en w Hok)
    as (acks & status & frame & reads & _ & _ & _ & _ & _ & Hrun).
  rewrite Hrun. cbn [final].
  eexists _, _. split; [reflexivity|]. split; [reflexivity|].
  split; [reflexivity|].
  cbn [self decoded _temperature].
  pose proof (temperature_check_holds _
                (temperature_field_range (byte_to_Z (frame 3%nat))
                   (byte_to_Z (frame 4%nat)) (byte_to_Z (frame 5%nat))))
    as H.
  unfold temperature_check in H. cbv zeta in H.
  apply andb_true_iff in H as [H _]. apply andb_true_iff in H.
  exact H.
Qed.

Lemma fahrenheit_after_measurement_witness :
  let w' :=
    final (start_measurement_ready true (mk_world new_driver fixture_bus)) in
  exists celsius fahrenheit,
    get_temperature_C w' = mk_run (Return celsius) [] w' /\
    get_temperature_F w' = mk_run (Return fahrenheit) [] w' /\
    fahrenheit
    = PrimFloat.add (PrimFloat.mul celsius 1.8%float) (float_of_int 32) /\
    PrimFloat.leb (-58)%float fahrenheit = true /\
    PrimFloat.ltb fahrenheit 302%float = true.
Proof.
  apply (fahrenheit_after_measurement true
           (mk_world new_driver fixture_bus)).
  vm_compute. reflexivity.
Defined.

Lemma byte_to_Z_of_Z (z : Z) : byte_to_Z (byte_of_Z z) = z mod 256.
Proof.
  unfold byte_of_Z, byte_to_Z.
  pose proof (Z.mod_pos_bound z 256 ltac:(lia)) as Hm.
  destruct (Byte.of_N (Z.to_N (z mod 256))) as [b|] eqn:E.
  - rewrite (Byte.to_of_N _ E). lia.
  - apply Byte.of_N_None_iff in E. lia.
Qed.

Lemma pack_frame_fields (status : byte) (raw_h raw_t : Z) :
  0 <= raw_h < 0x100000 -> 0 <= raw_t < 0x100000 ->
  let frame := stream_of (pack_frame status raw_h raw_t) in
  humidity_field (byte_to_Z (frame 1%nat)) (byte_to_Z (frame 2%nat))
    (byte_to_Z (frame 3%nat)) = raw_h /\
  temperature_field (byte_to_Z (frame 3%nat)) (byte_to_Z (frame 4%nat))
    (byte_to_Z (frame 5%nat)) = raw_t.
Proof.
  intros Hh Ht. cbv zeta.
  rewrite humidity_field_bytes, temperature_field_bytes
    by apply byte_to_Z_range.
  unfold stream_of, pack_frame. cbn [nth].
  rewrite !byte_to_Z_of_Z.
  change (2 ^ 12) with 4096. change (2 ^ 4) with 16.
  change (2 ^ 16) with 65536. change (2 ^ 8) with 256.
  change 0x100000 with 1048576 in *.
  split; Z.div_mod_to_equations; lia.
Qed.

(** X13. Round trip through the frame layout: when a calibrated, idle
    device answers with the frame that packs the 20-bit values [raw_h] and
    [raw_t] (humidity in bytes 1-2 and the high nibble of byte 3,
    temperature in the low nibble of byte 3 and bytes 4-5),
    [start_measurement_ready] succeeds and stores exactly the decoded
    [raw_h] and [raw_t]: the two fields do not disturb each other. *)
Theorem packed_frame_is_decoded (w : world) (acks : list bool)
    (status : nat -> byte) (frame_status : byte) (raw_h raw_t : Z)
    (reads : list (option (nat -> byte))) :
  0 <= raw_h < 0x100000 -> 0 <= raw_t < 0x100000 ->
  write_acks (bus w) = true :: true :: acks ->
  read_data (bus w)
  = Some status
    :: Some (stream_of (pack_frame frame_status raw_h raw_t)) :: reads ->
  truthy (Z.land (byte_to_Z (status 0%nat)) 0x08) = true ->
  truthy (Z.land (byte_to_Z frame_status) 0x80) = false ->
  let r := start_measurement_ready false w in
  result r = Return true /\
  _humidity (self (final r)) = humidity_of_raw raw_h /\
  _temperature (self (final r)) = temperature_of_raw raw_t.
Proof.
  intros Hh Ht Ha Hr Hs Hb.
  destruct (pack_frame_fields frame_status raw_h raw_t Hh Ht) as [Eh Et].
  cbv zeta in Eh, Et.
  revert Ha Hr. split_world w. simpl. intros -> ->.
  exec. rewrite Hs. exec.
  change (stream_of (pack_frame frame_status raw_h raw_t) 0%nat)
    with frame_status.
  rewrite Hb. exec.
  rewrite Eh, Et. repeat split.
Qed.

Lemma packed_frame_is_decoded_witness :
  let r :=
    start_measurement_ready false
      (mk_world new_driver
         (mk_i2c [true; true]
            [Some (stream_of [x18]);
             Some (stream_of (pack_frame x1c 0x1B335 0xA9A3B))])) in
  result r = Return true /\
  _humidity (self (final r)) = humidity_of_raw 0x1B335 /\
  _temperature (self (final r)) = temperature_of_raw 0xA9A3B.
Proof.
  apply (packed_frame_is_decoded
           (mk_world new_driver
              (mk_i2c [true; true]
                 [Some (stream_of [x18]);
                  Some (stream_of (pack_frame x1c 0x1B335 0xA9A3B))]))
           [] (stream_of [x18]) x1c 0x1B335 0xA9A3B []);
    (lia || reflexivity).
Defined.

(** ** main.py *)

Lemma read_sensor_run (fmt : float -> string) (w : world) :
  read_sensor fmt w =
  match begin w with
  | mk_run (Raise OSError) t1 w1 =>
      mk_script_run (Done None) (t1 ++ [Print "Failed to read sensor."]) w1
  | mk_run (Raise e) t1 w1 => mk_script_run (Raised (Builtin e)) t1 w1
  | mk_run (Return false) t1 w1 =>
      mk_script_run (Raised (SystemExit 1))
        (t1 ++ [Print "Failed to start sensor"]) w1
  | mk_run (Return true) t1 w1 =>
      match start_measurement_ready false w1 with
      | mk_run (Raise OSError) t2 w2 =>
          mk_script_run (Done None)
            (t1 ++ t2 ++ [Print "Failed to read sensor."]) w2
      | mk_run (Raise e) t2 w2 =>
          mk_script_run (Raised (Builtin e)) (t1 ++ t2) w2
      | mk_run (Return _) t2 w2 =>
          mk_script_run
            (Done (Some (reading_json fmt (_temperature (self w2))
                           (_humidity (self w2)))))
            (t1 ++ t2 ++
             [Print ("Temperature: " ++ fmt (_temperature (self w2)) ++ " C");
              Print ("Humidity: " ++ fmt (_humidity (self w2)) ++ " %")])
            w2
      end
  end.
Proof.
  unfold read_sensor, try_except_OSError, script_bind, call, sys_exit,
    script_raise.
  destruct (begin w) as [[[|]|[|]] t1 w1]; simpl; try reflexivity.
  - destruct (start_measurement_ready false w1) as [[b|[|]] t2 w2]; simpl;
      rewrite ?app_nil_r, <- ?app_assoc; try reflexivity.
Qed.

Lemma begin_outcomes (w : world) :
  match result (begin w) with
  | Return _ => write_failed (trace (begin w)) = false
  | Raise OSError => write_failed (trace (begin w)) = true
  | Raise IndexError => False
  end.
Proof.
  split_world w. unfold write_failed.
  destruct acks as [|[] [|[] [|[] acks]]];
    destruct reads as [|[s1|] [|[s2|] reads]];
    exec; try reflexivity; repeat (branch; exec; try reflexivity).
Qed.

Lemma measurement_outcomes (crc_en : bool) (w : world) :
  match result (start_measurement_ready crc_en w) with
  | Raise OSError =>
      write_failed (trace (start_measurement_ready crc_en w)) = true
  | _ => write_failed (trace (start_measurement_ready crc_en w)) = false
  end.
Proof.
  split_world w. unfold write_failed.
  destruct acks as [|[] [|[] acks]];
    destruct reads as [|[status|] [|[frame|] reads]]; destruct crc_en;
    exec; try reflexivity; repeat (branch; exec; try reflexivity).
Qed.

Lemma write_failed_app (t1 t2 : list event) :
  write_failed (t1 ++ t2) = write_failed t1 || write_failed t2.
Proof. apply existsb_app. Qed.

(** X14. [read_sensor] of main.py never lets an [OSError] out.  It returns
    [None] exactly when a bus write was not acknowledged, and then the last
    thing it did was to print "Failed to read sensor.". *)
Theorem read_sensor_absorbs_OSError (fmt : float -> string) (w : world) :
  let r := read_sensor fmt w in
  script_result r <> Raised (Builtin OSError) /\
  (write_failed (script_trace r) = true <-> script_result r = Done None) /\
  (script_result r = Done None ->
   exists t, script_trace r = t ++ [Print "Failed to read sensor."]).
Proof.
  cbv zeta. rewrite read_sensor_run.
  pose proof (begin_outcomes w) as Hb.
  destruct (begin w) as [[[|]|[|]] t1 w1]; cbn [result trace] in Hb;
    cbn [script_result script_trace].
  - pose proof (measurement_outcomes false w1) as Hm.
    destruct (start_measurement_ready false w1) as [[b|[|]] t2 w2];
      cbn [result trace] in Hm; cbn [script_result script_trace];
      rewrite !write_failed_app, Hb, Hm; simpl;
      (split; [discriminate|]); (split; [split; discriminate || trivial|]);
      try discriminate.
    intros _. exists (t1 ++ t2). rewrite app_assoc. reflexivity.
  - rewrite write_failed_app, Hb. simpl.
    split; [discriminate|]. split; [split; discriminate|discriminate].
  - rewrite write_failed_app, Hb. simpl.
    split; [discriminate|]. split; [split; trivial|].
    intros _. exists t1. reflexivity.
  - destruct Hb.
Qed.

Lemma read_sensor_absorbs_OSError_witness :
  exists t,
    script_trace
      (read_sensor (fun _ => EmptyString)
         (mk_world new_driver (mk_i2c [true; false] [Some (stream_of [x10])])))
    = t ++ [Print "Failed to read sensor."].
Proof.
  apply (proj2 (proj2 (read_sensor_absorbs_OSError (fun _ => EmptyString)
                         (mk_world new_driver
                            (mk_i2c [true; false]
                               [Some (stream_of [x10])]))))).
  vm_compute. reflexivity.
Defined.

Lemma begin_false_iff (w : world) :
  result (begin w) = Return false <->
  (exists acks, write_acks (bus w) = true :: true :: true :: acks) /\
  ready_bit (next_status (bus w)) = false /\
  ready_bit (next_status (after_read (bus w))) = false.
Proof.
  split_world w. unfold ready_bit, next_status, after_read. simpl.
  destruct acks as [|[] [|[] [|[] acks]]];
    destruct reads as [|[s1|] [|[s2|] reads]];
    exec; repeat (branch; exec);
    (split; [try discriminate; intros _; repeat split; eauto
            | intros [[acks' Ha] [H1 H2]];
              try discriminate Ha; try discriminate H1;
              try discriminate H2; try reflexivity]).
Qed.

(** X15. [read_sensor] ends the program with [sys.exit(1)] exactly when
    [begin] returns [False]: the three bus writes of [begin] are
    acknowledged and neither status read shows the ready bit (a failed
    status read counts as not ready). *)
Theorem read_sensor_exits_iff_not_ready (fmt : float -> string) (w : world) :
  script_result (read_sensor fmt w) = Raised (SystemExit 1) <->
  (exists acks, write_acks (bus w) = true :: true :: true :: acks) /\
  ready_bit (next_status (bus w)) = false /\
  ready_bit (next_status (after_read (bus w))) = false.
Proof.
  rewrite <- begin_false_iff, read_sensor_run.
  destruct (begin w) as [[[|]|[|]] t1 w1]; cbn [result script_result].
  - destruct (start_measurement_ready false w1) as [[b|[|]] t2 w2];
      cbn [script_result]; split; discriminate.
  - split; reflexivity.
  - split; discriminate.
  - split; discriminate.
Qed.

Lemma read_sensor_exits_iff_not_ready_witness :
  script_result
    (read_sensor (fun _ => EmptyString)
       (mk_world new_driver (mk_i2c [true; true; true] [None; None])))
  = Raised (SystemExit 1).
Proof.
  apply (proj2 (read_sensor_exits_iff_not_ready (fun _ => EmptyString)
                  (mk_world new_driver
                     (mk_i2c [true; true; true] [None; None])))).
  split; [exists []; reflexivity | split; reflexivity].
Defined.

(** X16. [read_sensor] does not look at what [start_measurement_ready]
    returns: whenever [begin] returns [True] and the measurement returns a
    boolean, the JSON text is built from the reading stored after the call,
    and when the measurement returned [False] that is the reading from
    before the call. *)
Theorem read_sensor_reports_stored_reading (fmt : float -> string)
    (w : world) (ok : bool) :
  result (begin w) = Return true ->
  result (start_measurement_ready false (final (begin w))) = Return ok ->
  let after :=
    self (final (start_measurement_ready false (final (begin w)))) in
  script_result (read_sensor fmt w)
  = Done (Some (reading_json fmt (_temperature after) (_humidity after))) /\
  (ok = false -> after = self w).
Proof.
  intros Hb Hm. cbv zeta. rewrite read_sensor_run. split.
  - destruct (begin w) as [rb t1 w1]. cbn [result final] in *. subst rb.
    destruct (start_measurement_ready false w1) as [rm t2 w2].
    cbn [result final] in *. subst rm. reflexivity.
  - intros ->. rewrite measurement_failure_keeps_self
      by (rewrite Hm; discriminate).
    apply begin_keeps_self.
Qed.

Lemma read_sensor_reports_stored_reading_witness :
  let w :=
    mk_world measured_driver
      (mk_i2c [true; true; true]
         [Some (stream_of [x18]); Some (stream_of [x18]);
          Some (stream_of [x80; x1b; x33; x5a; x9a; x3b])]) in
  let after :=
    self (final (start_measurement_ready false (final (begin w)))) in
  script_result (read_sensor (fun _ => EmptyString) w)
  = Done (Some (reading_json (fun _ => EmptyString) (_temperature after)
                  (_humidity after))) /\
  (false = false -> after = measured_driver).
Proof.
  apply (read_sensor_reports_stored_reading (fun _ => EmptyString)
           (mk_world measured_driver
              (mk_i2c [true; true; true]
                 [Some (stream_of [x18]); Some (stream_of [x18]);
                  Some (stream_of [x80; x1b; x33; x5a; x9a; x3b])]))
           false); vm_compute; reflexivity.
Defined.

(** X17. The [IndexError] of a failed frame read is not caught by
    [except OSError]: [read_sensor] raises [IndexError] exactly when [begin]
    returns [True] and [start_measurement_ready] raises it. *)
Theorem read_sensor_lets_IndexError_through (fmt : float -> string)
    (w : world) :
  script_result (read_sensor fmt w) = Raised (Builtin IndexError) <->
  result (begin w) = Return true /\
  result (start_measurement_ready false (final (begin w)))
  = Raise IndexError.
Proof.
  rewrite read_sensor_run. pose proof (begin_outcomes w) as Hb.
  destruct (begin w) as [[[|]|[|]] t1 w1];
    cbn [result final script_result] in *.
  - destruct (start_measurement_ready false w1) as [[b|[|]] t2 w2];
      cbn [result script_result]; split;
      (discriminate || (intros [_ H]; discriminate H) || auto).
  - split; [discriminate | intros [H _]; discriminate H].
  - split; [discriminate | intros [H _]; discriminate H].
  - destruct Hb.
Qed.

Lemma read_sensor_lets_IndexError_through_witness :
  script_result
    (read_sensor (fun _ => EmptyString)
       (mk_world measured_driver
          (mk_i2c [true; true; true]
             [Some (stream_of [x18]); Some (stream_of [x18]); None])))
  = Raised (Builtin IndexError).
Proof.
  apply (proj2 (read_sensor_lets_IndexError_through (fun _ => EmptyString)
                  (mk_world measured_driver
                     (mk_i2c [true; true; true]
                        [Some (stream_of [x18]); Some (stream_of [x18]);
                         None])))).
  split; vm_compute; reflexivity.
Defined.

Lemma read_sensor_final (fmt : float -> string) (w : world) :
  script_final (read_sensor fmt w) = final (begin w) \/
  script_final (read_sensor fmt w)
  = final (start_measurement_ready false (final (begin w))).
Proof.
  rewrite read_sensor_run.
  destruct (begin w) as [[[|]|[|]] t1 w1]; cbn [final script_final]; auto.
  destruct (start_measurement_ready false w1) as [[b|[|]] t2 w2];
    cbn [final script_final]; auto.
Qed.

Lemma read_sensor_keeps (fmt : float -> string) (w : world) :
  reading_valid (self w) = true ->
  reading_valid (self (script_final (read_sensor fmt w))) = true.
Proof.
  intros Hv.
  pose proof (proj2 (run_operation_keeps w Begin) Hv) as Hb.
  pose proof (proj2 (run_operation_keeps _ (Measure false)) Hb) as Hm.
  destruct (read_sensor_final fmt w) as [-> | ->]; assumption.
Qed.

Lemma read_sensor_no_OSError (fmt : float -> string) (w : world) :
  script_result (read_sensor fmt w) <> Raised (Builtin OSError).
Proof.
  rewrite read_sensor_run. pose proof (begin_outcomes w) as Hb.
  destruct (begin w) as [[[|]|[|]] t1 w1]; cbn [script_result];
    try discriminate.
  destruct (start_measurement_ready false w1) as [[b|[|]] t2 w2];
    cbn [script_result]; discriminate.
Qed.

Lemma poll_step (fmt : float -> string) (n : nat) (w : world) :
  poll fmt (S n) w =
  match read_sensor fmt w with
  | mk_script_run (Done _) t1 w1 =>
      match poll fmt n w1 with
      | mk_script_run res t2 w2 =>
          mk_script_run res (t1 ++ Sleep (float_of_int 1) :: t2) w2
      end
  | mk_script_run (Raised e) t1 w1 => mk_script_run (Raised e) t1 w1
  end.
Proof.
  cbn [poll]. unfold script_bind, call, sleep, emit.
  destruct (read_sensor fmt w) as [[a|e] t1 w1]; [|reflexivity].
  destruct (poll fmt n w1) as [res t2 w2]. reflexivity.
Qed.

(** X18. The polling loop of main.py, for any number of turns and any
    bus answers: the stored reading stays inside [0, 100) and [-50, 150),
    and the loop is never left by an [OSError]. *)
Theorem poll_keeps_reading_valid (fmt : float -> string) (n : nat)
    (w : world) :
  reading_valid (self w) = true ->
  reading_valid (self (script_final (poll fmt n w))) = true /\
  script_result (poll fmt n w) <> Raised (Builtin OSError).
Proof.
  revert w. induction n as [|n IH]; intros w Hv.
  - split; [exact Hv | discriminate].
  - rewrite poll_step.
    pose proof (read_sensor_keeps fmt w Hv) as Hk.
    pose proof (read_sensor_no_OSError fmt w) as Hno.
    destruct (read_sensor fmt w) as [[a|e] t1 w1];
      cbn [script_final script_result] in *.
    + destruct (IH w1 Hk) as [Hv' Hr'].
      destruct (poll fmt n w1) as [r2 t2 w2];
        cbn [script_final script_result] in *.
      split; assumption.
    + split; [exact Hk|]. intros H. apply Hno. injection H as ->.
      reflexivity.
Qed.

Lemma poll_keeps_reading_valid_witness :
  let w :=
    mk_world new_driver
      (mk_i2c [true; true; true; false]
         [Some (stream_of [x18]);
          Some (stream_of [x18]);
          Some (stream_of [x00; x1b; x33; x5a; x9a; x3b])]) in
  reading_valid (self (script_final (poll (fun _ => EmptyString) 2 w)))
  = true /\
  script_result (poll (fun _ => EmptyString) 2 w)
  <> Raised (Builtin OSError).
Proof.
  apply (poll_keeps_reading_valid (fun _ => EmptyString) 2
           (mk_world new_driver
              (mk_i2c [true; true; true; false]
                 [Some (stream_of [x18]);
                  Some (stream_of [x18]);
                  Some (stream_of [x00; x1b; x33; x5a; x9a; x3b])]))).
  vm_compute. reflexivity.
Defined.

(** ** i2c.py *)

Lemma slice_bound_0 (len : Z) : 0 <= len -> slice_bound len 0 = 0.
Proof.
  intros Hlen. unfold slice_bound. cbv zeta.
  change (0 <? 0) with false. cbv iota.
  change (0 <? 0) with false. cbv iota.
  destruct (Z.ltb_spec len 0); lia.
Qed.

Lemma slice_bound_len (len : Z) : 0 <= len -> slice_bound len len = len.
Proof.
  intros Hlen. unfold slice_bound. cbv zeta.
  destruct (Z.ltb_spec len 0); [lia|].
  destruct (Z.ltb_spec len 0); [lia|].
  destruct (Z.ltb_spec len len); lia.
Qed.

Lemma py_slice_whole (l : list byte) :
  py_slice l 0 (Z.of_nat (List.length l)) = l.
Proof.
  unfold py_slice. cbv zeta.
  rewrite slice_bound_0, slice_bound_len by lia.
  rewrite Z.sub_0_r, Nat2Z.id. simpl. apply firstn_all.
Qed.

Lemma slice_bound_range (len i : Z) : 0 <= len -> 0 <= slice_bound len i <= len.
Proof.
  intros Hlen. unfold slice_bound. cbv zeta.
  destruct (i <? 0) eqn:E1.
  - destruct (Z.ltb_spec (i + len) 0); [lia|].
    destruct (Z.ltb_spec len (i + len)); lia.
  - destruct (Z.ltb_spec i 0); [lia|].
    destruct (Z.ltb_spec len i); lia.
Qed.

Lemma py_slice_length (l : list byte) (start stop : Z) :
  let len := Z.of_nat (List.length l) in
  Z.of_nat (List.length (py_slice l start stop))
  = Z.max 0 (slice_bound len stop - slice_bound len start).
Proof.
  cbv zeta. unfold py_slice. cbv zeta.
  pose proof (slice_bound_range (Z.of_nat (List.length l)) start ltac:(lia)).
  pose proof (slice_bound_range (Z.of_nat (List.length l)) stop ltac:(lia)).
  rewrite length_firstn, length_skipn. lia.
Qed.

Lemma store_other (h : list (list byte)) (r r' : nat) (data : list byte) :
  r <> r' -> nth r' (store h r data) [] = nth r' h [].
Proof.
  revert r r'. induction h as [|x h IH]; intros r r' Hne; simpl.
  - reflexivity.
  - destruct r as [|r], r' as [|r']; simpl; try reflexivity.
    + congruence.
    + apply IH. congruence.
Qed.

Lemma store_length (h : list (list byte)) (r : nat) (data : list byte) :
  List.length (store h r data) = List.length h.
Proof.
  revert r. induction h as [|x h IH]; intros r; simpl.
  - reflexivity.
  - destruct r; simpl; [reflexivity | rewrite IH; reflexivity].
Qed.

Lemma store_same (h : list (list byte)) (r : nat) (data : list byte) :
  (r < List.length h)%nat -> nth r (store h r data) [] = data.
Proof.
  revert r. induction h as [|x h IH]; intros r Hr; simpl in *.
  - lia.
  - destruct r; simpl; [reflexivity | apply IH; lia].
Qed.

(** X19. [I2CDevice.write] makes one bus write, of the slice
    [buf[start:end]] of the caller's buffer (bounds counted from the end
    when negative, clamped to the buffer, the whole buffer by default); the
    slice is never longer than the buffer, the caller's buffer is left as it
    was, and an unacknowledged write comes out as [OSError]. *)
Theorem write_sends_slice (self : I2CDevice.obj) (w : device_world)
    (buf : nat) (start : Z) (end_ : option Z) :
  (buf < List.length (heap w))%nat ->
  let content := nth buf (heap w) [] in
  let stop :=
    match end_ with
    | None => Z.of_nat (List.length content)
    | Some e => e
    end in
  let r := I2CDevice.write self buf start end_ w in
  exists acked,
    script_trace r
    = [I2C_writeto (I2CDevice.device_address self)
         (Bytes (py_slice content start stop)) acked] /\
    script_result r
    = (if acked then Done tt else Raised (Builtin OSError)) /\
    nth buf (heap (script_final r)) [] = content /\
    (List.length (py_slice content start stop) <= List.length content)%nat /\
    (start = 0 -> end_ = None -> py_slice content start stop = content).
Proof.
  intros Hbuf. cbv zeta.
  assert (Hlen : (List.length
                    (py_slice (nth buf (heap w) []) start
                       match end_ with
                       | Some e => e
                       | None => Z.of_nat (List.length (nth buf (heap w) []))
                       end) <= List.length (nth buf (heap w) []))%nat).
  { unfold py_slice. cbv zeta. rewrite length_firstn, length_skipn. lia. }
  assert (Hwhole : start = 0 -> end_ = None ->
            py_slice (nth buf (heap w) []) start
              match end_ with
              | Some e => e
              | None => Z.of_nat (List.length (nth buf (heap w) []))
              end = nth buf (heap w) []).
  { intros -> ->. apply py_slice_whole. }
  destruct w as [h [acks reads]].
  unfold I2CDevice.write, script_bind, deref, alloc, i2c_writeto.
  cbn [heap wires write_acks read_data script_result script_trace
       script_final] in *.
  rewrite nth_middle.
  destruct acks as [|[] acks]; cbn [script_result script_trace script_final
                                    heap app];
    [exists false | exists true | exists false];
    (split; [reflexivity|]); (split; [reflexivity|]);
    (split; [apply app_nth1; exact Hbuf|]); split; assumption.
Qed.

Lemma write_sends_slice_witness :
  let w := mk_device_world [[x01; x02; x03; x04]] (mk_i2c [true] []) in
  let r := I2CDevice.write (I2CDevice.mk_obj 0x38) 0 1 (Some (-1)) w in
  exists acked,
    script_trace r
    = [I2C_writeto 0x38
         (Bytes (py_slice [x01; x02; x03; x04] 1 (-1))) acked] /\
    script_result r
    = (if acked then Done tt else Raised (Builtin OSError)) /\
    nth 0 (heap (script_final r)) [] = [x01; x02; x03; x04] /\
    (List.length (py_slice [x01; x02; x03; x04] 1 (-1)) <= 4)%nat /\
    (1 = 0 -> Some (-1) = None ->
     py_slice [x01; x02; x03; x04] 1 (-1) = [x01; x02; x03; x04]).
Proof.
  apply (write_sends_slice (I2CDevice.mk_obj 0x38)
           (mk_device_world [[x01; x02; x03; x04]] (mk_i2c [true] []))
           0 1 (Some (-1))).
  simpl. lia.
Defined.

(** X20. [I2CDevice.readinto] asks the bus for as many bytes as the slice
    [buf[start:end]] is long, but the bytes go into the copy that the slice
    is: every buffer that existed before the call, the caller's included,
    has the same content afterwards.  A failed read comes out as
    [OSError]. *)
Theorem readinto_leaves_buffers (self : I2CDevice.obj) (w : device_world)
    (buf : nat) (start : Z) (end_ : option Z) :
  let r := I2CDevice.readinto self buf start end_ w in
  let content := nth buf (heap w) [] in
  let stop :=
    match end_ with
    | None => Z.of_nat (List.length content)
    | Some e => e
    end in
  (forall existing, (existing < List.length (heap w))%nat ->
     nth existing (heap (script_final r)) [] = nth existing (heap w) []) /\
  exists answer,
    script_trace r
    = [I2C_readfrom (I2CDevice.device_address self)
         (List.length (py_slice content start stop)) answer] /\
    script_result r
    = match answer with
      | Some _ => Done tt
      | None => Raised (Builtin OSError)
      end.
Proof.
  cbv zeta. destruct w as [h [acks reads]].
  unfold I2CDevice.readinto, script_bind, deref, alloc, i2c_readfrom_into.
  cbn [heap wires write_acks read_data script_result script_trace
       script_final].
  rewrite nth_middle.
  destruct reads as [|[stream|] reads];
    cbn [script_result script_trace script_final heap app]; split;
    try (eexists; split; reflexivity).
  - intros existing He. apply app_nth1. exact He.
  - intros existing He. rewrite store_other by lia.
    apply app_nth1. exact He.
  - intros existing He. apply app_nth1. exact He.
Qed.

Lemma readinto_leaves_buffers_witness :
  nth 0
    (heap
       (script_final
          (I2CDevice.readinto (I2CDevice.mk_obj 0x38) 0 0 None
             (mk_device_world [[x00; x00]]
                (mk_i2c [] [Some (stream_of [xaa; xbb])])))))
    []
  = [x00; x00].
Proof.
  apply (proj1 (readinto_leaves_buffers (I2CDevice.mk_obj 0x38)
                  (mk_device_world [[x00; x00]]
                     (mk_i2c [] [Some (stream_of [xaa; xbb])]))
                  0 0 None) 0%nat).
  simpl. lia.
Defined.

(** X21. Constructing an [I2CDevice] with [probe=True] raises
    [ValueError] ("No I2C device at address: 0x..", the address in
    hexadecimal) exactly when the empty write is not acknowledged and the
    one-byte read fails as well; in every other case it returns the device
    object.  With [probe=False] it does no bus traffic at all. *)
Theorem probe_outcomes (device_address : Z) (w : device_world) :
  let r := I2CDevice.__init__ device_address true w in
  let no_device :=
    ValueError
      ("No I2C device at address: 0x"
       ++ NilZero.string_of_int (Z.to_hex_int device_address))%string in
  (script_result r = Raised no_device <->
   hd false (write_acks (wires w)) = false /\
   next_read_fails (wires w) = true) /\
  (script_result r <> Raised no_device ->
   script_result r = Done (I2CDevice.mk_obj device_address)) /\
  I2CDevice.__init__ device_address false w
  = mk_script_run (Done (I2CDevice.mk_obj device_address)) [] w.
Proof.
  cbv zeta. destruct w as [h [acks reads]].
  unfold next_read_fails. cbn [wires write_acks read_data].
  destruct acks as [|[] acks]; destruct reads as [|[stream|] reads];
    cbn; repeat split; try discriminate; try reflexivity; try tauto;
    try (intros [H1 H2]; discriminate);
    try (intros H; exfalso; apply H; reflexivity).
Qed.

Lemma probe_outcomes_witness :
  script_result
    (I2CDevice.__init__ 0x38 true (mk_device_world [] (mk_i2c [false] [None])))
  = Raised (ValueError "No I2C device at address: 0x38").
Proof.
  apply (proj2 (proj1 (probe_outcomes 0x38
                         (mk_device_world [] (mk_i2c [false] [None]))))).
  split; reflexivity.
Defined.
